(** * Hospital waste dashboard (src/app.py): a shallow embedding

    The program is one Streamlit script.  [load_data] reads a CSV into a
    pandas frame, derives [Month] from [Date] and, when the column is not
    there yet, [Bin_Color] from [Infectious] and [Waste_Type].  The rest of
    the script filters the frame by two multiselect widgets, computes four
    KPIs and six grouped sums, and renders them with a CSV download.

    Modelling choices, all stated once here:
    - A frame is its column labels plus its rows.  The four columns the
      script reads without a guard ([Date], [Department], [Weight_kg],
      [Infectious]) are fields of a row; every other column (among them
      [Waste_Type], [Month], [Bin_Color]) is an object column kept in a
      finite map from label to cell.  Any cell may be missing, as pandas
      leaves an empty CSV cell: NaT in [Date], NaN in an object column, the
      float NaN in [Weight_kg].  A label is part of the frame only when it
      is listed in [columns]; the definitions consult [columns] exactly
      where the script does.
    - [Weight_kg] is a float64 column, its cells binary64 numbers of the
      kernel.  The reductions add in the order numpy and pandas add, so
      their rounding is the program's; comparisons and display work on the
      exact value of a float.  A file whose weights are all written as
      whole numbers gives an int64 column, with integer sums; that column
      type is not modelled.
    - What [pd.read_csv] and [pd.to_datetime] return is the input of
      [load_data]; the widgets' return values are inputs of the script.
    - A rendered page is the list of Streamlit calls in program order. *)

From Stdlib Require Import QArith Qround Qminmax Qabs DecimalString Ascii Lqa.
From Stdlib Require Import Floats.
From Stdlib.Strings Require Import Byte.
From stdpp Require Import gmap strings list fin_maps sorting.

Open Scope string_scope.

(** ** Python values of an object column *)

Inductive cell :=
| Str (s : string)
| NaN.

#[global] Instance cell_eq_dec : EqDecision cell.
Proof. solve_decision. Defined.

(** [str(v)] for a cell: a string is itself, the float NaN prints as nan. *)
Definition py_str (v : cell) : string :=
  match v with
  | Str s => s
  | NaN => "nan"
  end.

(** [v == s] for a cell [v] and a string literal [s]. *)
Definition cell_eq_str (v : cell) (s : string) : bool :=
  match v with
  | Str t => String.eqb t s
  | NaN => false
  end.

(** [needle in hay] on Python strings: some suffix of [hay] starts with
    [needle]. *)
Fixpoint py_in (needle hay : string) : bool :=
  String.prefix needle hay ||
  match hay with
  | EmptyString => false
  | String _ hay' => py_in needle hay'
  end.

(** ** The classifier, lines 15-23 *)

Definition get_bin_color (infectious waste_type : cell) : string :=
  if cell_eq_str infectious "Yes" then
    if py_in "Sharps" (py_str waste_type) then "Red" else "Yellow"
  else
    if py_in "Recyclable" (py_str waste_type) then "Blue" else "Black".

(** ** Data model *)

Inductive month_of_year :=
| Jan | Feb | Mar | Apr | May | Jun | Jul | Aug | Sep | Oct | Nov | Dec.

#[global] Instance month_of_year_eq_dec : EqDecision month_of_year.
Proof. solve_decision. Defined.

(** A calendar day. *)
Record Timestamp := mkTimestamp {
  year : Z;
  month : month_of_year;
  day : Z;
}.

#[global] Instance Timestamp_eq_dec : EqDecision Timestamp.
Proof. solve_decision. Defined.

(** A cell of the parsed [Date] column: what [pd.to_datetime] leaves, a day
    or, for an empty cell, NaT. *)
Inductive datetime :=
| Stamp (t : Timestamp)
| NaT.

#[global] Instance datetime_eq_dec : EqDecision datetime.
Proof. solve_decision. Defined.

(** One row of the frame. *)
Record Row := mkRow {
  Date : datetime;
  Department : cell;
  Weight_kg : float;
  Infectious : cell;
  other : gmap string cell;
}.

Record DataFrame := mkDataFrame {
  columns : list string;
  rows : list Row;
}.

(** [c in df.columns] *)
Definition has_column (df : DataFrame) (c : string) : bool :=
  bool_decide (c ∈ columns df).

(** The cell of object column [c] in row [r]; an absent entry is a missing
    value. *)
Definition at_col (c : string) (r : Row) : cell :=
  default NaN (other r !! c).

(** [x.get(c, dflt)] for a row [x] of [df]: the row's index is
    [df.columns]. *)
Definition row_get (df : DataFrame) (x : Row) (c : string) (dflt : cell) : cell :=
  if has_column df c then at_col c x else dflt.

(** [df[c] = df.apply(f, axis=1)]: an existing label keeps its place, a new
    one goes last; [f] sees the rows of [df] as they are before the
    assignment. *)
Definition assign (c : string) (f : Row → cell) (df : DataFrame) : DataFrame :=
  {| columns := if has_column df c then columns df else columns df ++ [c];
     rows := (λ r, mkRow (Date r) (Department r) (Weight_kg r) (Infectious r)
                         (<[c := f r]> (other r))) <$> rows df |}.

(** ** The loader, lines 10-28 *)

Definition month_order : list string :=
  [ "January"; "February"; "March"; "April"; "May"; "June";
    "July"; "August"; "September"; "October"; "November"; "December" ].

(** [t.strftime('%B')] *)
Definition strftime_B (t : Timestamp) : string :=
  match month t with
  | Jan => "January" | Feb => "February" | Mar => "March"
  | Apr => "April" | May => "May" | Jun => "June"
  | Jul => "July" | Aug => "August" | Sep => "September"
  | Oct => "October" | Nov => "November" | Dec => "December"
  end.

(** One cell of [df['Date'].dt.strftime('%B')]: NaT gives NaN. *)
Definition month_name (d : datetime) : cell :=
  match d with
  | Stamp t => Str (strftime_B t)
  | NaT => NaN
  end.

(** The enrichment of lines 25-26. *)
Definition enrich (df : DataFrame) : DataFrame :=
  if negb (has_column df "Bin_Color") then
    assign "Bin_Color"
      (λ x, Str (get_bin_color (Infectious x)
                               (row_get df x "Waste_Type" (Str ""))))
      df
  else df.

(** [load_data], from the frame that [read_csv] and [to_datetime] give. *)
Definition load_data (csv : DataFrame) : DataFrame :=
  let df := assign "Month" (λ r, month_name (Date r)) csv in
  enrich df.

(** ** Sidebar controls and the filter, lines 39-58 *)

(** [Series.unique()]: distinct values in order of first appearance. *)
Fixpoint unique_from {A} `{EqDecision A} (seen l : list A) : list A :=
  match l with
  | [] => []
  | x :: l' =>
      if decide (x ∈ seen) then unique_from seen l'
      else x :: unique_from (x :: seen) l'
  end.

Definition unique {A} `{EqDecision A} (l : list A) : list A :=
  unique_from [] l.

Definition available_months (df : DataFrame) : list string :=
  filter (λ m, Str m ∈ unique (at_col "Month" <$> rows df)) month_order.

(** The department options: a missing department is one of the values. *)
Definition department_options (df : DataFrame) : list cell :=
  unique (Department <$> rows df).

(** [Series.isin(values)], one element at a time; a missing value is in
    [values] when [values] holds a missing value. *)
Definition isin {A} `{EqDecision A} (values : list A) (x : A) : bool :=
  bool_decide (x ∈ values).

Definition mask (selected_months : list string) (selected_dept : list cell)
    (r : Row) : bool :=
  isin (Str <$> selected_months) (at_col "Month" r)
  && isin selected_dept (Department r).

(** [df.loc[mask]] *)
Definition loc (m : Row → bool) (df : DataFrame) : DataFrame :=
  {| columns := columns df; rows := filter (λ r, m r) (rows df) |}.

Definition filtered_df (df : DataFrame)
    (selected_months : list string) (selected_dept : list cell) : DataFrame :=
  loc (mask selected_months selected_dept) df.

(** ** float64 cells *)

(** [pd.isna] on a float cell. *)
Definition isna (w : float) : bool := PrimFloat.is_nan w.

(** Where a float stands among the numbers: -1 for minus infinity, 0 for a
    number, 1 for plus infinity, 2 for NaN. *)
Definition float_class (x : float) : Z :=
  match Prim2SF x with
  | S754_zero _ => 0
  | S754_finite _ _ _ => 0
  | S754_infinity true => -1
  | S754_infinity false => 1
  | S754_nan => 2
  end.

(** The exact value of a float that is a number. *)
Definition float_Q (x : float) : Q :=
  match Prim2SF x with
  | S754_finite s m e =>
      (inject_Z (if s then Z.neg m else Z.pos m) * 2 ^ e)%Q
  | _ => 0%Q
  end.

#[global] Instance Qle_dec (x y : Q) : Decision (x <= y)%Q :=
  match Qlt_le_dec y x with
  | left H => right (Qlt_not_le _ _ H)
  | right H => left H
  end.

(** The order of the numbers, with the infinities at their ends and NaN
    after everything, where [sort_values] puts it. *)
Definition float_le : relation float := λ x y,
  (float_class x < float_class y)%Z
  ∨ (float_class x = float_class y
     ∧ (float_class x ≠ 0%Z ∨ (float_Q x <= float_Q y)%Q)).

#[global] Instance float_le_dec x y : Decision (float_le x y).
Proof. unfold float_le. apply _. Defined.

(** Descending order of the numbers, NaN still after everything. *)
Definition float_ge_nan_last : relation float := λ x y,
  float_class y = 2%Z ∨ (float_class x ≠ 2%Z ∧ float_le y x).

#[global] Instance float_ge_nan_last_dec x y : Decision (float_ge_nan_last x y).
Proof. unfold float_ge_nan_last. apply _. Defined.

(** ** Series reductions, lines 72-75 *)

(** numpy's sum of a contiguous float64 array.  Fewer than eight numbers
    are added one after the other; up to 128 numbers are added in eight
    interleaved lanes that are then combined in pairs; a longer array is
    split in two near the middle, at a multiple of eight. *)
Definition sum_loop (acc : float) (a : list float) : float :=
  foldl PrimFloat.add acc a.

Fixpoint add_blocks (r a : list float) (blocks : nat) : list float :=
  match blocks with
  | O => r
  | S b => add_blocks (zip_with PrimFloat.add r (take 8 a)) (drop 8 a) b
  end.

Definition sum_unrolled (a : list float) : float :=
  let n := length a in
  let full := (n - n mod 8)%nat in
  let r := add_blocks (take 8 a) (drop 8 a) (full / 8 - 1) in
  let lane i := default 0%float (r !! i) in
  sum_loop
    (((lane 0%nat + lane 1%nat) + (lane 2%nat + lane 3%nat))
     + ((lane 4%nat + lane 5%nat) + (lane 6%nat + lane 7%nat)))%float
    (drop full a).

Fixpoint pairwise_sum (fuel : nat) (a : list float) : float :=
  let n := length a in
  if (n <? 8)%nat then sum_loop 0%float a
  else if (n <=? 128)%nat then sum_unrolled a
  else
    match fuel with
    | O => 0%float
    | S fuel' =>
        let n2 := (n / 2 - (n / 2) mod 8)%nat in
        (pairwise_sum fuel' (take n2 a) + pairwise_sum fuel' (drop n2 a))%float
    end.

Definition np_sum (a : list float) : float :=
  (0 + pairwise_sum (length a) a)%float.

(** The values a reduction sees when it skips missing cells: pandas puts
    [v] in their place. *)
Definition fillna (v : float) (s : list float) : list float :=
  (λ w, if isna w then v else w) <$> s.

(** [Series.count()]: the cells that are not missing. *)
Definition count (s : list float) : nat :=
  length (filter (λ w, isna w = false) s).

Definition float_of_nat (n : nat) : float :=
  PrimFloat.of_uint63 (Uint63.of_Z (Z.of_nat n)).

(** [Series.sum()]: missing cells count as 0; the empty sum is 0. *)
Definition Series_sum (s : list float) : float := np_sum (fillna 0%float s).

(** [Series.mean()]: the sum over the count; NaN when nothing is present. *)
Definition Series_mean (s : list float) : float :=
  (Series_sum s / float_of_nat (count s))%float.

(** numpy's maximum of an array without NaN: the running maximum is
    replaced by a number that is greater. *)
Definition np_max (a : list float) : float :=
  match a with
  | [] => nan
  | x :: a' => foldl (λ m w, if decide (float_le w m) then m else w) x a'
  end.

(** [Series.max()]: missing cells are skipped; NaN when nothing is
    present. *)
Definition Series_max (s : list float) : float :=
  if (count s =? 0)%nat then nan else np_max (fillna neg_infinity s).

Definition total_waste (fdf : DataFrame) : float :=
  Series_sum (Weight_kg <$> rows fdf).

Definition infectious_waste (fdf : DataFrame) : float :=
  Series_sum
    (Weight_kg <$> rows (loc (λ r, cell_eq_str (Infectious r) "Yes") fdf)).

Definition avg_daily (fdf : DataFrame) : float :=
  Series_mean (Weight_kg <$> rows fdf).

Definition max_waste (fdf : DataFrame) : float :=
  Series_max (Weight_kg <$> rows fdf).

(** ** The format specs [,.1f] and [,.2f], lines 78-81 *)

Definition decimal (n : Z) : string :=
  NilZero.string_of_uint (N.to_uint (Z.to_N n)).

(** A comma before every group of three digits, counted from the right. *)
Fixpoint thousands (digits : string) : string :=
  match digits with
  | EmptyString => EmptyString
  | String c rest =>
      String c
        (if (0 <? String.length rest)%nat && (String.length rest mod 3 =? 0)%nat
         then "," +:+ thousands rest
         else thousands rest)
  end.

Fixpoint zeros (n : nat) : string :=
  match n with
  | O => EmptyString
  | S n' => "0" +:+ zeros n'
  end.

(** [n] in decimal, padded on the left with zeros to [width] digits. *)
Definition zero_padded (width : nat) (n : Z) : string :=
  let d := decimal n in
  zeros (width - String.length d) +:+ d.

(** The nearest integer, ties to the even one. *)
Definition round_half_even (x : Q) : Z :=
  let f := Qfloor x in
  match ((x - inject_Z f) ?= (1 # 2))%Q with
  | Lt => f
  | Gt => (f + 1)%Z
  | Eq => if Z.even f then f else (f + 1)%Z
  end.

(** A magnitude with [prec] decimals and grouped integer digits. *)
Definition fixed (prec : nat) (q : Q) : string :=
  let scale := (10 ^ Z.of_nat prec)%Z in
  let n := round_half_even (q * inject_Z scale)%Q in
  thousands (decimal (n / scale))
  +:+ (match prec with
       | O => ""
       | S _ => "." +:+ zero_padded prec (n mod scale)
       end).

(** [format(x, ',.<prec>f')]: the sign bit, then the magnitude rounded from
    the exact value of the float. *)
Definition format_comma_f (prec : nat) (x : float) : string :=
  match Prim2SF x with
  | S754_nan => "nan"
  | S754_infinity s => (if s then "-" else "") +:+ "inf"
  | S754_zero s => (if s then "-" else "") +:+ fixed prec 0
  | S754_finite s m e =>
      (if s then "-" else "") +:+ fixed prec (inject_Z (Z.pos m) * 2 ^ e)%Q
  end.

(** The value strings of the four metrics. *)
Definition kpi1_value (fdf : DataFrame) : string :=
  format_comma_f 1 (total_waste fdf) +:+ " kg".
Definition kpi2_value (fdf : DataFrame) : string :=
  format_comma_f 1 (infectious_waste fdf) +:+ " kg".
Definition kpi3_value (fdf : DataFrame) : string :=
  format_comma_f 2 (avg_daily fdf) +:+ " kg".
Definition kpi4_value (fdf : DataFrame) : string :=
  format_comma_f 2 (max_waste fdf) +:+ " kg".

(** ** Grouped sums, lines 95-142 *)

(** One step of the compensated sum that [groupby(...).sum()] runs for a
    group: the running sum and the rounding error carried along; an error
    that is NaN, as after an infinity, is reset. *)
Definition kahan_step (st : float * float) (val : float) : float * float :=
  let y := (val - st.2)%float in
  let t := (st.1 + y)%float in
  let c := (t - st.1 - y)%float in
  (t, if isna c then 0%float else c).

(** The sum of one group: missing cells are skipped, an empty group sums to
    0. *)
Definition group_sum (s : list float) : float :=
  (foldl kahan_step (0%float, 0%float) (filter (λ w, isna w = false) s)).1.

(** [groupby(key)["Weight_kg"].sum().reset_index()]: one line per distinct
    key, keys in ascending order, rows whose key is missing dropped. *)
Section groupby.
Context {K : Type} `{EqDecision K}.
Context (le : relation K) `{∀ x y, Decision (le x y)}.

Definition group_rows (key : Row → option K) (l : list Row) (k : K) : list Row :=
  filter (λ r, key r = Some k) l.

(** The sum of one group. *)
Definition group_total (key : Row → option K) (l : list Row) (k : K) : float :=
  group_sum (Weight_kg <$> group_rows key l k).

Definition groupby_sum (key : Row → option K) (l : list Row) : list (K * float) :=
  (λ k, (k, group_total key l k)) <$> merge_sort le (unique (omap key l)).
End groupby.

Definition str_le : relation string := λ a b, String.leb a b.

Definition pair_le : relation (string * string) := λ a b,
  match String.compare a.1 b.1 with
  | Lt => True
  | Eq => str_le a.2 b.2
  | Gt => False
  end.

#[global] Instance pair_le_dec a b : Decision (pair_le a b).
Proof. unfold pair_le. destruct (String.compare a.1 b.1); apply _. Defined.

Definition month_number (m : month_of_year) : Z :=
  match m with
  | Jan => 1 | Feb => 2 | Mar => 3 | Apr => 4 | May => 5 | Jun => 6
  | Jul => 7 | Aug => 8 | Sep => 9 | Oct => 10 | Nov => 11 | Dec => 12
  end.

(** Chronological order: year, then month, then day. *)
Definition date_le : relation Timestamp := λ a b,
  (year a < year b
   ∨ (year a = year b
      ∧ (month_number (month a) < month_number (month b)
         ∨ (month a = month b ∧ day a ≤ day b))))%Z.

#[global] Instance date_le_dec a b : Decision (date_le a b).
Proof. unfold date_le. apply _. Defined.

(** [sort_values("Date")] on the rows: days in order, NaT last. *)
Definition datetime_le : relation datetime := λ a b,
  match a, b with
  | Stamp s, Stamp t => date_le s t
  | _, NaT => True
  | NaT, Stamp _ => False
  end.

#[global] Instance datetime_le_dec a b : Decision (datetime_le a b).
Proof. unfold datetime_le. destruct a, b; apply _. Defined.

(** The key of a cell: a missing cell is no key. *)
Definition cell_key (v : cell) : option string :=
  match v with
  | Str s => Some s
  | NaN => None
  end.

(** The key of an object column. *)
Definition key_of (c : string) (r : Row) : option string :=
  cell_key (at_col c r).

Definition department_key (r : Row) : option string :=
  cell_key (Department r).

(** The key of [groupby(["Department", "Infectious"])]: missing when either
    part is. *)
Definition department_infectious_key (r : Row) : option (string * string) :=
  match Department r, Infectious r with
  | Str d, Str i => Some (d, i)
  | _, _ => None
  end.

Definition date_key (r : Row) : option Timestamp :=
  match Date r with
  | Stamp t => Some t
  | NaT => None
  end.

(** [sort_values("Weight_kg")] on a grouped frame, NaN last.  pandas leaves
    the order of equal weights open; here ties keep their order. *)
Definition sort_by_weight {K} (ascending : bool) (g : list (K * float))
    : list (K * float) :=
  if ascending then merge_sort (λ a b, float_le a.2 b.2) g
  else merge_sort (λ a b, float_ge_nan_last a.2 b.2) g.

Definition dept_group (fdf : DataFrame) : list (string * float) :=
  sort_by_weight true (groupby_sum str_le department_key (rows fdf)).

Definition type_group (fdf : DataFrame) : list (string * float) :=
  sort_by_weight false (groupby_sum str_le (key_of "Waste_Type") (rows fdf)).

Definition bin_group (fdf : DataFrame) : list (string * float) :=
  groupby_sum str_le (key_of "Bin_Color") (rows fdf).

Definition grouped_df (fdf : DataFrame) : list ((string * string) * float) :=
  groupby_sum pair_le department_infectious_key (rows fdf).

(** The daily trend.  [sort_values] leaves the order of the records of one
    day open; here they keep their order. *)
Definition trend_data (fdf : DataFrame) : list (Timestamp * float) :=
  groupby_sum date_le date_key
    (merge_sort (λ a b, datetime_le (Date a) (Date b)) (rows fdf)).

(** ** The CSV export, line 151 *)

Definition dquote : ascii := "034"%char.
Definition newline : ascii := "010"%char.
Definition carriage_return : ascii := "013"%char.

(** Minimal quoting: a field holding the delimiter, the quote character or
    the line terminator is wrapped in quotes, its quotes doubled. *)
Definition special (c : ascii) : bool :=
  bool_decide (c ∈ [","%char; dquote; newline]).

Fixpoint double_quotes (s : string) : string :=
  match s with
  | EmptyString => EmptyString
  | String c s' =>
      if Ascii.eqb c dquote then String c (String c (double_quotes s'))
      else String c (double_quotes s')
  end.

Definition csv_quote (s : string) : string :=
  if existsb special (String.list_ascii_of_string s)
  then String dquote (double_quotes s +:+ String dquote EmptyString)
  else s.

(** One record; a record of one empty field is written as a pair of quotes,
    so that it is not an empty line. *)
Definition csv_line (fields : list string) : string :=
  match fields with
  | [EmptyString] => String dquote (String dquote (String newline EmptyString))
  | _ => String.concat "," (csv_quote <$> fields) +:+ String newline EmptyString
  end.

(** A date column prints as [YYYY-MM-DD]. *)
Definition isoformat (t : Timestamp) : string :=
  zero_padded 4 (year t) +:+ "-" +:+ zero_padded 2 (month_number (month t))
  +:+ "-" +:+ zero_padded 2 (day t).

(** The text of an object cell in the file: a missing cell is empty. *)
Definition cell_text (v : cell) : string :=
  match v with
  | Str s => s
  | NaN => ""
  end.

Definition date_text (d : datetime) : string :=
  match d with
  | Stamp t => isoformat t
  | NaT => ""
  end.

(** [s.encode('utf-8')]: a string is kept as its UTF-8 bytes. *)
Definition encode_utf8 (s : string) : list Byte.byte :=
  String.list_byte_of_string s.

(** [b.decode('utf-8')] *)
Definition decode_utf8 (b : list Byte.byte) : string :=
  String.string_of_list_byte b.

(** The reader of the format, as [csv.reader] splits a text into records:
    a comma ends a field and a line break ends a record, except inside
    quotes, where a doubled quote stands for one quote; a carriage return
    outside quotes is a line break too, alone or before a line feed; an
    empty line is a record without fields. *)
Inductive reader_state :=
| StartRecord | AfterCR | StartField | InField | InQuoted | QuoteSeen.

Inductive char_kind := Comma | Quote | LineFeed | Return | Plain.

Definition kind_of (c : ascii) : char_kind :=
  if Ascii.eqb c ","%char then Comma
  else if Ascii.eqb c dquote then Quote
  else if Ascii.eqb c newline then LineFeed
  else if Ascii.eqb c carriage_return then Return
  else Plain.

Definition snoc_char (acc : string) (c : ascii) : string :=
  acc +:+ String c EmptyString.

Fixpoint read_records (st : reader_state) (rec : list string) (acc : string)
    (input : string) : list (list string) :=
  match input with
  | EmptyString =>
      match st with
      | StartRecord | AfterCR => []
      | StartField | InField | InQuoted | QuoteSeen => [(rec ++ [acc])%list]
      end
  | String c rest =>
      match st, kind_of c with
      | InQuoted, Quote => read_records QuoteSeen rec acc rest
      | InQuoted, _ => read_records InQuoted rec (snoc_char acc c) rest
      | QuoteSeen, Quote => read_records InQuoted rec (snoc_char acc c) rest
      | AfterCR, LineFeed => read_records StartRecord [] EmptyString rest
      | (StartRecord | AfterCR), Comma =>
          read_records StartField [EmptyString] EmptyString rest
      | StartRecord, LineFeed =>
          [] :: read_records StartRecord [] EmptyString rest
      | (StartRecord | AfterCR), Return =>
          [] :: read_records AfterCR [] EmptyString rest
      | (StartField | InField | QuoteSeen), Comma =>
          read_records StartField (rec ++ [acc])%list EmptyString rest
      | (StartField | InField | QuoteSeen), LineFeed =>
          (rec ++ [acc])%list :: read_records StartRecord [] EmptyString rest
      | (StartField | InField | QuoteSeen), Return =>
          (rec ++ [acc])%list :: read_records AfterCR [] EmptyString rest
      | (StartRecord | AfterCR | StartField), Quote =>
          read_records InQuoted rec EmptyString rest
      | (StartRecord | AfterCR | StartField | InField | QuoteSeen), _ =>
          read_records InField rec (snoc_char acc c) rest
      end
  end.

Definition csv_reader (text : string) : list (list string) :=
  read_records StartRecord [] EmptyString text.

(** What the reader does once a field is complete and its separator [t] is
    read: a comma opens the next field, a line feed closes the record. *)
Definition after_field (rec : list string) (fld : string) (t : ascii)
    (rest : string) : list (list string) :=
  if Ascii.eqb t ","%char
  then read_records StartField (rec ++ [fld])%list EmptyString rest
  else (rec ++ [fld])%list :: read_records StartRecord [] EmptyString rest.

(** A text without a carriage return. *)
Definition no_carriage_return (s : string) : Prop :=
  carriage_return ∉ String.list_ascii_of_string s.

#[global] Instance no_carriage_return_dec s : Decision (no_carriage_return s).
Proof. unfold no_carriage_return. apply _. Defined.

Section export.
(** Python's [repr] of a float that is not NaN, which the writer uses for
    [Weight_kg]. *)
Variable repr_float : float → string.

Definition float_text (w : float) : string :=
  if isna w then "" else repr_float w.

(** The text of column [c] in row [r]; a missing value is empty. *)
Definition field (r : Row) (c : string) : string :=
  if String.eqb c "Date" then date_text (Date r)
  else if String.eqb c "Department" then cell_text (Department r)
  else if String.eqb c "Weight_kg" then float_text (Weight_kg r)
  else if String.eqb c "Infectious" then cell_text (Infectious r)
  else cell_text (at_col c r).

(** The records [to_csv(index=False)] writes: the header, then one record
    per row with one field per column. *)
Definition csv_records (df : DataFrame) : list (list string) :=
  columns df :: ((λ r, field r <$> columns df) <$> rows df).

Definition to_csv (df : DataFrame) : string :=
  String.concat "" (csv_line <$> csv_records df).

(** ** The page, lines 32-161 *)

Definition Table := list (list cell * float).

Inductive Figure :=
| px_pie (names values : string) (data : Table)
| px_bar (x y : string) (data : Table)
| px_area (x y : string) (data : Table).

Inductive Element :=
| st_header (body : string)
| st_subheader (body : string)
| st_caption (body : string)
| st_metric (label value : string) (delta : option string)
| st_plotly_chart (fig : Figure)
| st_warning (body : string)
| st_markdown (body : string)
| st_dataframe (data : DataFrame)
| st_download_button (label : string) (data : list Byte.byte)
                     (file_name mime : string)
| st_multiselect (label : string) (options default : list cell)
| st_sidebar (e : Element).

Definition one_label {K} (f : K → string) (g : list (K * float)) : Table :=
  (λ p, ([Str (f p.1)], p.2)) <$> g.

Definition period_text (selected_months : list string) : string :=
  if (length selected_months =? 12)%nat then "Full Year 2024"
  else String.concat ", " selected_months +:+ " 2024".

Definition controls (df : DataFrame) : list Element :=
  [ st_sidebar (st_header "Dashboard Controls");
    st_sidebar (st_multiselect "Select Month(s):"
                  (Str <$> available_months df) (Str <$> available_months df));
    st_sidebar (st_multiselect "Filter by Department:"
                  (department_options df) (department_options df)) ].

Definition key_metrics (fdf : DataFrame) : list Element :=
  [ st_subheader "Key Metrics";
    st_metric "Total Waste Volume" (kpi1_value fdf) (Some "Accumulated");
    st_metric "Infectious Waste" (kpi2_value fdf) (Some "Biohazard Risk");
    st_metric "Avg. Daily Output" (kpi3_value fdf) None;
    st_metric "Max Recorded Spike" (kpi4_value fdf) None ].

Definition risk_and_department (fdf : DataFrame) : list Element :=
  [ st_subheader "Risk Analysis: Infectious Ratio";
    st_plotly_chart
      (px_pie "Infectious" "Weight_kg"
         ((λ r, ([Infectious r], Weight_kg r)) <$> rows fdf));
    st_subheader "Total Volume by Department";
    st_plotly_chart
      (px_bar "Weight_kg" "Department" (one_label id (dept_group fdf))) ].

Definition waste_type_view (fdf : DataFrame) : list Element :=
  if has_column fdf "Waste_Type" then
    [ st_plotly_chart
        (px_bar "Waste_Type" "Weight_kg" (one_label id (type_group fdf))) ]
  else
    [ st_warning "Waste_Type column missing." ].

Definition bin_color_view (fdf : DataFrame) : list Element :=
  if has_column fdf "Bin_Color" then
    [ st_plotly_chart
        (px_pie "Bin_Color" "Weight_kg" (one_label id (bin_group fdf))) ]
  else [].

Definition composition (fdf : DataFrame) : list Element :=
  [ st_subheader "Waste Composition & Segregation Audit";
    st_caption "Volume by Specific Waste Category" ]
  ++ waste_type_view fdf
  ++ [ st_caption "Bin Color Distribution (Compliance Check)" ]
  ++ bin_color_view fdf.

Definition comparative (fdf : DataFrame) : list Element :=
  [ st_subheader
      "Comparative Analysis: Infectious vs. Non-Infectious by Department";
    st_plotly_chart
      (px_bar "Department" "Weight_kg"
         ((λ p, ([Str p.1.1; Str p.1.2], p.2)) <$> grouped_df fdf)) ].

Definition timeline (fdf : DataFrame) : list Element :=
  [ st_subheader "Timeline Analysis: Waste Generation Spikes";
    st_plotly_chart
      (px_area "Date" "Weight_kg" (one_label isoformat (trend_data fdf))) ].

Definition audit_trail (fdf : DataFrame) : list Element :=
  [ st_markdown "---";
    st_dataframe fdf;
    st_download_button "Download Filtered Data as CSV"
      (encode_utf8 (to_csv fdf))
      "hospital_waste_audit_data.csv" "text/csv" ].

Definition credits : list Element :=
  [ st_sidebar (st_caption "Project: ITE3 Health Informatics");
    st_sidebar (st_caption "Passed By: Namuco, Karl Cedrick R.");
    st_sidebar (st_caption "Data Source: Medical Waste Classification (2024) - https://www.kaggle.com/datasets/rohitshetty04/medical-waste-classification") ].

(** One run of the script: the frame read from the file and what the two
    multiselects return. *)
Definition app (csv : DataFrame)
    (selected_months : list string) (selected_dept : list cell)
    : list Element :=
  let df := load_data csv in
  let fdf := filtered_df df selected_months selected_dept in
  controls df
  ++ [ st_header "Hospital Waste Management Audit (2024 Data)";
       st_subheader
         "Operational Overview: Infectious vs. Non-Infectious Generation";
       st_caption ("**Reporting Period:** " +:+ period_text selected_months) ]
  ++ key_metrics fdf
  ++ risk_and_department fdf
  ++ composition fdf
  ++ comparative fdf
  ++ timeline fdf
  ++ audit_trail fdf
  ++ credits.

(** The first run: both widgets return their defaults. *)
Definition app_first_run (csv : DataFrame) : list Element :=
  app csv (available_months (load_data csv))
          (department_options (load_data csv)).
End export.

(** ** Sample frames *)

Definition sample_row (y : Z) (m : month_of_year) (d : Z) (dept : string)
    (w : float) (inf : string) (cells : list (string * cell)) : Row :=
  mkRow (Stamp (mkTimestamp y m d)) (Str dept) w (Str inf) (list_to_map cells).

(** A file with the optional [Waste_Type] column and no [Bin_Color]. *)
Definition sample_csv : DataFrame :=
  {| columns := ["Date"; "Department"; "Weight_kg"; "Infectious"; "Waste_Type"];
     rows :=
       [ sample_row 2024 Mar 5 "ICU" 12.5 "Yes"
           [("Waste_Type", Str "Sharps Container")];
         sample_row 2024 Mar 6 "ER" 3.25 "No"
           [("Waste_Type", Str "Recyclable Plastic")];
         sample_row 2024 Jan 10 "ICU" 7 "Yes"
           [("Waste_Type", Str "Pathological")];
         sample_row 2024 Jan 11 "Lab" 1.5 "No"
           [("Waste_Type", Str "General")] ] |}.

(** The same file without [Waste_Type]. *)
Definition sample_csv_no_type : DataFrame :=
  {| columns := ["Date"; "Department"; "Weight_kg"; "Infectious"];
     rows :=
       [ sample_row 2024 Mar 5 "ICU" 12.5 "Yes" [];
         sample_row 2024 Mar 6 "ER" 3.25 "No" [] ] |}.

(** A file that already carries [Bin_Color]. *)
Definition sample_csv_binned : DataFrame :=
  {| columns := ["Date"; "Department"; "Weight_kg"; "Infectious"; "Bin_Color"];
     rows :=
       [ sample_row 2024 Mar 5 "ICU" 12.5 "Yes" [("Bin_Color", Str "Black")] ] |}.

(** A file whose second record has an empty [Department] cell. *)
Definition sample_csv_no_department : DataFrame :=
  {| columns := ["Date"; "Department"; "Weight_kg"; "Infectious"];
     rows :=
       [ sample_row 2024 Mar 5 "ICU" 12.5 "Yes" [];
         mkRow (Stamp (mkTimestamp 2024 Mar 6)) NaN 3.25 (Str "No") ∅ ] |}.

(** A file whose first record has an empty [Date] cell. *)
Definition sample_csv_no_date : DataFrame :=
  {| columns := ["Date"; "Department"; "Weight_kg"; "Infectious"];
     rows :=
       [ mkRow NaT (Str "ICU") 1.5 (Str "Yes") ∅;
         sample_row 2024 Mar 5 "ER" 2.5 "No" [] ] |}.

(** A file whose weights, one tenth, two tenths and four tenths, are no
    binary fractions; each cell holds the nearest float. *)
Definition sample_csv_tenths : DataFrame :=
  {| columns := ["Date"; "Department"; "Weight_kg"; "Infectious"];
     rows :=
       [ sample_row 2024 Mar 5 "ICU" 0x1.999999999999ap-4 "Yes" [];
         sample_row 2024 Mar 6 "ER" 0x1.999999999999ap-3 "No" [];
         sample_row 2024 Mar 7 "ICU" 0x1.999999999999ap-2 "Yes" [] ] |}.

(** A file whose only record has an empty [Weight_kg] cell. *)
Definition sample_csv_no_weight : DataFrame :=
  {| columns := ["Date"; "Department"; "Weight_kg"; "Infectious"];
     rows := [ sample_row 2024 Mar 5 "ICU" nan "Yes" [] ] |}.

(** [repr] on the weights that occur in the samples. *)
Definition sample_repr (w : float) : string :=
  if (w =? 12.5)%float then "12.5"
  else if (w =? 3.25)%float then "3.25"
  else if (w =? 7)%float then "7.0"
  else if (w =? 1.5)%float then "1.5"
  else if (w =? 2.5)%float then "2.5"
  else "0.0".

(** The selection January and ICU on a file that has no such record. *)
Definition january_icu : DataFrame :=
  filtered_df (load_data sample_csv_no_type) ["January"] [Str "ICU"].

(** The first record of [load_data sample_csv]. *)
Definition sample_enriched_row : Row :=
  sample_row 2024 Mar 5 "ICU" 12.5 "Yes"
    [("Waste_Type", Str "Sharps Container"); ("Month", Str "March");
     ("Bin_Color", Str "Red")].

(** ** The decision table, in the words of the specification *)

(** [sub] occurs in [s] as a contiguous, case-sensitive substring. *)
Definition contains (sub s : string) : Prop :=
  ∃ before after, s = before +:+ sub +:+ after.

Inductive decision_table (infectious : cell) (waste_type : string)
    : string → Prop :=
| table_red :
    infectious = Str "Yes" → contains "Sharps" waste_type →
    decision_table infectious waste_type "Red"
| table_yellow :
    infectious = Str "Yes" → ¬ contains "Sharps" waste_type →
    decision_table infectious waste_type "Yellow"
| table_blue :
    infectious ≠ Str "Yes" → contains "Recyclable" waste_type →
    decision_table infectious waste_type "Blue"
| table_black :
    infectious ≠ Str "Yes" → ¬ contains "Recyclable" waste_type →
    decision_table infectious waste_type "Black".

(** The waste-type string of a row of [df], the empty string when it is
    missing. *)
Definition waste_type_or_empty (df : DataFrame) (r : Row) : string :=
  if has_column df "Waste_Type" then
    match at_col "Waste_Type" r with
    | Str s => s
    | NaN => ""
    end
  else "".

Definition bin_colors : list string := ["Red"; "Yellow"; "Blue"; "Black"].

(** A display string into which no NaN was formatted. *)
Definition nan_free (s : string) : Prop := ¬ contains "nan" s.

(** The records of a frame that have a [Date]. *)
Definition dated (df : DataFrame) : DataFrame :=
  loc (λ r, bool_decide (Date r ≠ NaT)) df.

(** ** Tactics for membership in a page *)

(** An element that is written out in the page. *)
Ltac on_the_page :=
  first [ apply list_elem_of_here
        | apply list_elem_of_further; on_the_page
        | apply elem_of_app; first [ left; on_the_page | right; on_the_page ] ].

(** An element that differs from every element of a page. *)
Ltac off_the_page H :=
  first [ by apply elem_of_nil in H
        | apply elem_of_cons in H as [H|H];
          [ discriminate H | off_the_page H ]
        | apply elem_of_app in H as [H|H]; off_the_page H ].

(** The one download button of the page. *)
Ltac the_button H :=
  first [ by apply elem_of_nil in H
        | apply elem_of_cons in H as [H|H];
          [ first [ discriminate H | by injection H as -> -> -> -> ]
          | the_button H ]
        | apply elem_of_app in H as [H|H]; the_button H ].

(** * Properties *)

(** ** The model on the sample frames *)

Example classify_sharps_container :
  get_bin_color (Str "Yes") (Str "Sharps Container") = "Red".
Proof. reflexivity. Qed.

Example classify_recyclable_plastic :
  get_bin_color (Str "No") (Str "Recyclable Plastic") = "Blue".
Proof. reflexivity. Qed.

Example classify_is_case_sensitive :
  get_bin_color (Str "Yes") (Str "sharps") = "Yellow"
  ∧ get_bin_color (Str "yes") (Str "Sharps") = "Black".
Proof. split; reflexivity. Qed.

Example sample_loaded_columns :
  columns (load_data sample_csv)
  = ["Date"; "Department"; "Weight_kg"; "Infectious"; "Waste_Type";
     "Month"; "Bin_Color"]
  ∧ (at_col "Month" <$> rows (load_data sample_csv))
    = [Str "March"; Str "March"; Str "January"; Str "January"]
  ∧ (at_col "Bin_Color" <$> rows (load_data sample_csv))
    = [Str "Red"; Str "Blue"; Str "Yellow"; Str "Black"].
Proof. repeat split; reflexivity. Qed.

(** A [Bin_Color] that comes with the file is kept as it is. *)
Example sample_binned_is_kept :
  (at_col "Bin_Color" <$> rows (load_data sample_csv_binned)) = [Str "Black"].
Proof. reflexivity. Qed.

Example sample_defaults :
  available_months (load_data sample_csv) = ["January"; "March"]
  ∧ department_options (load_data sample_csv)
    = [Str "ICU"; Str "ER"; Str "Lab"].
Proof. split; reflexivity. Qed.

Example sample_dept_group :
  dept_group (load_data sample_csv)
  = [("Lab", 1.5); ("ER", 3.25); ("ICU", 19.5)]%float.
Proof. reflexivity. Qed.

(** The display rounds the exact value of the float: the float nearest to
    five hundredths lies above it and shows as 0.1. *)
Example sample_formats :
  format_comma_f 1 1234567.875 = "1,234,567.9"
  ∧ format_comma_f 2 0.125 = "0.12"
  ∧ format_comma_f 2 (-1234.5) = "-1,234.50"
  ∧ format_comma_f 1 0x1.999999999999ap-5 = "0.1"
  ∧ format_comma_f 2 infinity = "inf"
  ∧ format_comma_f 2 nan = "nan".
Proof. repeat split; reflexivity. Qed.

(** Ten tenths add up to 1 in numpy's lanes and fall short of it one after
    the other. *)
Example sample_pairwise :
  np_sum (replicate 10 0x1.999999999999ap-4%float) = 1%float
  ∧ sum_loop 0 (replicate 10 0x1.999999999999ap-4%float)
    = 0x1.fffffffffffffp-1%float.
Proof. split; reflexivity. Qed.

Example sample_to_csv :
  csv_records sample_repr
    (filtered_df (load_data sample_csv) ["January"] [Str "ICU"; Str "Lab"])
  = [ ["Date"; "Department"; "Weight_kg"; "Infectious"; "Waste_Type";
       "Month"; "Bin_Color"];
      ["2024-01-10"; "ICU"; "7.0"; "Yes"; "Pathological"; "January"; "Yellow"];
      ["2024-01-11"; "Lab"; "1.5"; "No"; "General"; "January"; "Black"] ].
Proof. reflexivity. Qed.

(** ** Strings *)

Lemma append_String c (p r : string) : String c p +:+ r = String c (p +:+ r).
Proof. reflexivity. Qed.

Lemma prefix_app (p s : string) :
  String.prefix p s = true ↔ ∃ rest, s = p +:+ rest.
Proof.
  revert s. induction p as [|c p IH]; intros s.
  - split; [intros _; exists s; reflexivity | by destruct s].
  - destruct s as [|d s]; simpl.
    + split; [done | intros [rest Hrest]; discriminate].
    + destruct (Ascii.ascii_dec c d) as [->|Hne].
      * rewrite IH. split; intros [rest Hrest].
        -- exists rest. by rewrite Hrest.
        -- exists rest. rewrite append_String in Hrest. congruence.
      * split; [done |].
        intros [rest Hrest]. rewrite append_String in Hrest. congruence.
Qed.

Lemma py_in_contains (needle hay : string) :
  py_in needle hay = true ↔ contains needle hay.
Proof.
  unfold contains. induction hay as [|c hay IH].
  - cbn [py_in]. rewrite orb_false_r, prefix_app. split.
    + intros [rest Hrest]. by exists "", rest.
    + intros (before & after & Heq). destruct before; [by exists after |].
      rewrite append_String in Heq. discriminate.
  - cbn [py_in]. rewrite orb_true_iff, prefix_app, IH. split.
    + intros [[rest Hrest] | (before & after & ->)].
      * by exists "", rest.
      * by exists (String c before), after.
    + intros (before & after & Heq). destruct before as [|d before].
      * left. by exists after.
      * right. exists before, after. rewrite append_String in Heq.
        congruence.
Qed.

Lemma py_in_not_contains (needle hay : string) :
  py_in needle hay = false ↔ ¬ contains needle hay.
Proof. rewrite <- py_in_contains. by destruct (py_in needle hay). Qed.

Lemma cell_eq_str_true v s : cell_eq_str v s = true ↔ v = Str s.
Proof.
  destruct v as [t|]; cbn [cell_eq_str]; [| split; discriminate].
  rewrite String.eqb_eq. split; congruence.
Qed.

Lemma cell_eq_str_false v s : cell_eq_str v s = false ↔ v ≠ Str s.
Proof.
  rewrite <- cell_eq_str_true. by destruct (cell_eq_str v s).
Qed.

(** The classifier computes the decision table; NaN reads like the empty
    string because neither keyword occurs in its text. *)
Lemma get_bin_color_table (infectious waste_type : cell) :
  decision_table infectious
    (match waste_type with Str s => s | NaN => "" end)
    (get_bin_color infectious waste_type).
Proof.
  unfold get_bin_color.
  destruct (cell_eq_str infectious "Yes") eqn:Hi.
  - apply cell_eq_str_true in Hi. destruct waste_type as [s|].
    + cbn [py_str]. destruct (py_in "Sharps" s) eqn:Hs.
      * apply table_red; [done | by apply py_in_contains].
      * apply table_yellow; [done | by apply py_in_not_contains].
    + apply table_yellow; [done | by apply py_in_not_contains].
  - apply cell_eq_str_false in Hi. destruct waste_type as [s|].
    + cbn [py_str]. destruct (py_in "Recyclable" s) eqn:Hs.
      * apply table_blue; [done | by apply py_in_contains].
      * apply table_black; [done | by apply py_in_not_contains].
    + apply table_black; [done | by apply py_in_not_contains].
Qed.

Lemma decision_table_functional i w c1 c2 :
  decision_table i w c1 → decision_table i w c2 → c1 = c2.
Proof. by intros [] []. Qed.

(** ** Column assignment and the loader *)

Lemma has_column_true df c : has_column df c = true ↔ c ∈ columns df.
Proof. unfold has_column. apply bool_decide_eq_true. Qed.

Lemma has_column_false df c : has_column df c = false ↔ c ∉ columns df.
Proof. unfold has_column. apply bool_decide_eq_false. Qed.

Lemma has_column_assign df c f : has_column (assign c f df) c = true.
Proof.
  apply has_column_true. unfold assign. cbn [columns].
  destruct (has_column df c) eqn:Hc.
  - by apply has_column_true.
  - apply elem_of_app. right. by apply list_elem_of_singleton.
Qed.

Lemma has_column_assign_ne df c c' f :
  c ≠ c' → has_column (assign c f df) c' = has_column df c'.
Proof.
  intros Hne. unfold assign, has_column at 1. cbn [columns].
  destruct (has_column df c); [done |].
  unfold has_column. apply bool_decide_ext. rewrite elem_of_app.
  rewrite list_elem_of_singleton. split; [intros [?|?]; [done | congruence] | by left].
Qed.

Lemma elem_of_rows_assign df c f r :
  r ∈ rows (assign c f df) ↔
  ∃ r0, r0 ∈ rows df ∧
        r = mkRow (Date r0) (Department r0) (Weight_kg r0) (Infectious r0)
                  (<[c := f r0]> (other r0)).
Proof.
  unfold assign. cbn [rows]. rewrite list_elem_of_fmap.
  split; intros (r0 & H1 & H2); by exists r0.
Qed.

Lemma at_col_assigned c v d dept w i o :
  at_col c (mkRow d dept w i (<[c := v]> o)) = v.
Proof. unfold at_col. cbn [other]. by rewrite lookup_insert_eq. Qed.

Lemma at_col_assigned_ne c c' v d dept w i o :
  c ≠ c' →
  at_col c' (mkRow d dept w i (<[c := v]> o)) = at_col c' (mkRow d dept w i o).
Proof. intros Hne. unfold at_col. cbn [other]. by rewrite lookup_insert_ne. Qed.

(** What [load_data] does to a file without [Bin_Color], row by row. *)
Lemma elem_of_rows_load_data csv r :
  has_column csv "Bin_Color" = false →
  r ∈ rows (load_data csv) ↔
  ∃ r0, r0 ∈ rows csv ∧
    r = mkRow (Date r0) (Department r0) (Weight_kg r0) (Infectious r0)
          (<["Bin_Color" :=
               Str (get_bin_color (Infectious r0)
                      (if has_column csv "Waste_Type"
                       then at_col "Waste_Type" r0 else Str ""))]>
             (<["Month" := month_name (Date r0)]> (other r0))).
Proof.
  intros Hbin. unfold load_data, enrich.
  rewrite has_column_assign_ne, Hbin by done. cbn [negb].
  rewrite elem_of_rows_assign. unfold row_get.
  rewrite has_column_assign_ne by done.
  split.
  - intros (r1 & Hr1 & ->). apply elem_of_rows_assign in Hr1 as (r0 & Hr0 & ->).
    exists r0. split; [done |]. cbn [Date Department Weight_kg Infectious other].
    rewrite at_col_assigned_ne by done. by destruct r0.
  - intros (r0 & Hr0 & ->). eexists. split.
    + apply elem_of_rows_assign. by exists r0.
    + cbn [Date Department Weight_kg Infectious other].
      rewrite at_col_assigned_ne by done. by destruct r0.
Qed.

(** C1. In the frame that [load_data] builds from a file without a
    [Bin_Color] column, the [Bin_Color] of every record is the value of the
    decision table at the record's [Infectious] and waste-type string: Red
    for "Yes" with "Sharps" in the type, Yellow for "Yes" otherwise, Blue
    for another flag with "Recyclable" in the type, Black otherwise; a
    missing [Waste_Type] counts as the empty string. *)
Theorem bin_color_is_decision_table (csv : DataFrame) (r : Row) :
  "Bin_Color" ∉ columns csv →
  r ∈ rows (load_data csv) →
  ∃ color,
    at_col "Bin_Color" r = Str color
    ∧ decision_table (Infectious r)
        (waste_type_or_empty (load_data csv) r) color.
Proof.
  intros Hbin%has_column_false Hr.
  apply elem_of_rows_load_data in Hr as (r0 & Hr0 & ->); [| done].
  eexists. split; [apply at_col_assigned |].
  cbn [Infectious]. unfold waste_type_or_empty, load_data, enrich.
  rewrite has_column_assign_ne, Hbin by done. cbn [negb].
  rewrite !has_column_assign_ne by done.
  rewrite !at_col_assigned_ne by done.
  pose proof (get_bin_color_table (Infectious r0)
    (if has_column csv "Waste_Type" then at_col "Waste_Type" r0 else Str ""))
    as Htable.
  destruct (has_column csv "Waste_Type"); [| exact Htable].
  destruct r0 as [d dept w i o]. exact Htable.
Qed.

Lemma sample_enriched_row_loaded :
  sample_enriched_row ∈ rows (load_data sample_csv).
Proof.
  apply list_elem_of_lookup. exists 0%nat. vm_compute. reflexivity.
Qed.

Lemma bin_color_is_decision_table_witness :
  ("Bin_Color" ∉ columns sample_csv)
  ∧ (sample_enriched_row ∈ rows (load_data sample_csv))
  ∧ ∃ color,
      at_col "Bin_Color" sample_enriched_row = Str color
      ∧ decision_table (Infectious sample_enriched_row)
          (waste_type_or_empty (load_data sample_csv) sample_enriched_row)
          color.
Proof.
  assert (Hbin : "Bin_Color" ∉ columns sample_csv).
  { apply has_column_false. reflexivity. }
  split; [exact Hbin |]. split; [exact sample_enriched_row_loaded |].
  exact (bin_color_is_decision_table sample_csv sample_enriched_row
           Hbin sample_enriched_row_loaded).
Defined.

(** ** The classifier alone *)

(** C7. For every pair of inputs, strings or NaN, the classifier returns one
    value and that value is one of Red, Yellow, Blue, Black. *)
Theorem get_bin_color_total (infectious waste_type : cell) :
  exists! color, color ∈ bin_colors ∧ get_bin_color infectious waste_type = color.
Proof.
  exists (get_bin_color infectious waste_type). split.
  - split; [| done]. unfold get_bin_color, bin_colors.
    destruct (cell_eq_str infectious "Yes").
    + destruct (py_in "Sharps" (py_str waste_type)).
      * apply list_elem_of_here.
      * do 1 apply list_elem_of_further. apply list_elem_of_here.
    + destruct (py_in "Recyclable" (py_str waste_type)).
      * do 2 apply list_elem_of_further. apply list_elem_of_here.
      * do 3 apply list_elem_of_further. apply list_elem_of_here.
  - by intros color [_ <-].
Qed.

Lemma get_bin_color_not_Yes (infectious waste_type : cell) :
  infectious ≠ Str "Yes" →
  get_bin_color infectious waste_type
  = if py_in "Recyclable" (py_str waste_type) then "Blue" else "Black".
Proof.
  intros Hne. unfold get_bin_color.
  destruct (cell_eq_str infectious "Yes") eqn:Heq; [| done].
  by apply cell_eq_str_true in Heq.
Qed.

(** ** Enrichment twice *)

Lemma enrich_present df : has_column df "Bin_Color" = true → enrich df = df.
Proof. intros Hbin. unfold enrich. by rewrite Hbin. Qed.

Lemma has_column_enrich df : has_column (enrich df) "Bin_Color" = true.
Proof.
  unfold enrich. destruct (has_column df "Bin_Color") eqn:Hbin; cbn [negb].
  - done.
  - apply has_column_assign.
Qed.

Lemma has_column_load_data csv : has_column (load_data csv) "Bin_Color" = true.
Proof. apply has_column_enrich. Qed.

(** ** The loader twice *)

Lemma month_lookup_loaded csv r :
  r ∈ rows (load_data csv) →
  other r !! "Month" = Some (month_name (Date r)).
Proof.
  unfold load_data, enrich.
  destruct (has_column (assign "Month" _ csv) "Bin_Color"); cbn [negb].
  - intros (r0 & _ & ->)%elem_of_rows_assign. cbn [other Date].
    apply lookup_insert_eq.
  - intros (r1 & Hr1 & ->)%elem_of_rows_assign.
    apply elem_of_rows_assign in Hr1 as (r0 & _ & ->).
    cbn [Date Department Weight_kg Infectious other].
    rewrite lookup_insert_ne by done. apply lookup_insert_eq.
Qed.

Lemma has_column_Month_loaded csv : has_column (load_data csv) "Month" = true.
Proof.
  unfold load_data, enrich.
  destruct (has_column (assign "Month" _ csv) "Bin_Color"); cbn [negb].
  - apply has_column_assign.
  - rewrite has_column_assign_ne by done. apply has_column_assign.
Qed.

(** Loading what was loaded changes nothing. *)
Lemma load_data_idempotent csv : load_data (load_data csv) = load_data csv.
Proof.
  assert (Hmonth : assign "Month" (λ r, month_name (Date r))
                     (load_data csv) = load_data csv).
  { unfold assign. rewrite has_column_Month_loaded.
    destruct (load_data csv) as [cols rs] eqn:Hdf. cbn [columns rows].
    f_equal. rewrite <- (list_fmap_id rs) at 2.
    apply list_fmap_ext. intros i r Hr.
    assert (Hin : r ∈ rows (load_data csv)).
    { rewrite Hdf. cbn [rows]. apply list_elem_of_lookup. by exists i. }
    apply month_lookup_loaded in Hin. destruct r as [d dept w inf o].
    cbn [Date Department Weight_kg Infectious other id] in *.
    f_equal. by apply insert_id. }
  unfold load_data at 1. cbv zeta. rewrite Hmonth.
  apply enrich_present, has_column_load_data.
Qed.

(** C5. Enrichment looks only at the presence of the [Bin_Color] column:
    its result has the column, and running it on its own result changes
    nothing, so the [Bin_Color] values of the second run are those of the
    first; the same holds for the whole loader run on its own result. *)
Theorem enrich_idempotent (df : DataFrame) :
  has_column (enrich df) "Bin_Color" = true
  ∧ enrich (enrich df) = enrich df
  ∧ (at_col "Bin_Color" <$> rows (enrich (enrich df)))
    = (at_col "Bin_Color" <$> rows (enrich df))
  ∧ load_data (load_data df) = load_data df.
Proof.
  pose proof (has_column_enrich df) as Hbin.
  pose proof (enrich_present _ Hbin) as Hsame.
  split; [done |]. split; [done |]. split; [by rewrite Hsame |].
  apply load_data_idempotent.
Qed.

(** ** Who counts as infectious *)

(** C10. A record whose [Infectious] is anything other than the string
    "Yes", another string or a missing cell, is classified on the
    non-infectious branch, Blue or Black, whatever its waste type, and its
    weight does not enter the infectious-waste total: the total of a frame
    is the same with the record and without it. *)
Theorem only_Yes_is_infectious (r : Row) :
  Infectious r ≠ Str "Yes" →
  (∀ waste_type : cell,
     get_bin_color (Infectious r) waste_type ∈ ["Blue"; "Black"])
  ∧ (∀ cols (before after : list Row),
       infectious_waste (mkDataFrame cols (before ++ r :: after))
       = infectious_waste (mkDataFrame cols (before ++ after))).
Proof.
  intros Hno. split.
  - intros waste_type. rewrite get_bin_color_not_Yes by done.
    destruct (py_in "Recyclable" (py_str waste_type)).
    + apply list_elem_of_here.
    + apply list_elem_of_further, list_elem_of_here.
  - intros cols before after. unfold infectious_waste, loc. cbn [rows].
    rewrite !filter_app, filter_cons_False; [done |].
    apply cell_eq_str_false in Hno. rewrite Hno. exact id.
Qed.

Lemma only_Yes_is_infectious_witness :
  Infectious (sample_row 2024 Mar 6 "ER" 3.25 "yes" []) ≠ Str "Yes"
  ∧ (∀ waste_type : cell,
       get_bin_color (Str "yes") waste_type ∈ ["Blue"; "Black"])
  ∧ (∀ cols (before after : list Row),
       infectious_waste
         (mkDataFrame cols
            (before ++ sample_row 2024 Mar 6 "ER" 3.25 "yes" [] :: after))
       = infectious_waste (mkDataFrame cols (before ++ after))).
Proof.
  assert (Hno : Infectious (sample_row 2024 Mar 6 "ER" 3.25 "yes" [])
                ≠ Str "Yes") by discriminate.
  split; [exact Hno |].
  exact (only_Yes_is_infectious _ Hno).
Defined.

(** ** The filter *)

Lemma isin_true {A} `{EqDecision A} (values : list A) (x : A) :
  isin values x = true ↔ x ∈ values.
Proof. unfold isin. apply bool_decide_eq_true. Qed.

Lemma mask_true selected_months selected_dept r :
  mask selected_months selected_dept r = true ↔
  (∃ m, at_col "Month" r = Str m ∧ m ∈ selected_months)
  ∧ Department r ∈ selected_dept.
Proof.
  unfold mask. rewrite andb_true_iff, !isin_true, list_elem_of_fmap.
  split; intros [(m & Hm & Hin) Hdept]; (split; [by exists m | done]).
Qed.

Lemma elem_of_filtered_df df selected_months selected_dept r :
  r ∈ rows (filtered_df df selected_months selected_dept) ↔
  r ∈ rows df ∧ mask selected_months selected_dept r = true.
Proof.
  unfold filtered_df, loc. cbn [rows]. rewrite list_elem_of_filter.
  rewrite Is_true_true. tauto.
Qed.

Lemma filtered_df_no_months df selected_dept :
  rows (filtered_df df [] selected_dept) = [].
Proof.
  apply elem_of_nil_inv. intros r Hr.
  apply elem_of_filtered_df in Hr as [_ Hmask].
  apply mask_true in Hmask as [(m & _ & Hm) _]. by apply elem_of_nil in Hm.
Qed.

Lemma filtered_df_no_departments df selected_months :
  rows (filtered_df df selected_months []) = [].
Proof.
  apply elem_of_nil_inv. intros r Hr.
  apply elem_of_filtered_df in Hr as [_ Hmask].
  apply mask_true in Hmask as [_ Hd]. by apply elem_of_nil in Hd.
Qed.

(** C3. A record is in the filter result exactly when it is in the frame,
    its [Month] is one of the selected months and its [Department] is one of
    the selected departments; with an empty month selection, or an empty
    department selection, the result has no record. *)
Theorem filter_is_conjunction (df : DataFrame)
    (M : list string) (D : list cell) :
  (∀ r, r ∈ rows (filtered_df df M D) ↔
        r ∈ rows df
        ∧ (∃ m, at_col "Month" r = Str m ∧ m ∈ M)
        ∧ Department r ∈ D)
  ∧ rows (filtered_df df [] D) = []
  ∧ rows (filtered_df df M []) = [].
Proof.
  split; [| split].
  - intros r. rewrite elem_of_filtered_df, mask_true. tauto.
  - apply filtered_df_no_months.
  - apply filtered_df_no_departments.
Qed.

(** ** Default selections *)

Lemma elem_of_unique_from {A} `{EqDecision A} (seen l : list A) x :
  x ∈ unique_from seen l ↔ x ∈ l ∧ x ∉ seen.
Proof.
  revert seen. induction l as [|y l IH]; intros seen; cbn [unique_from].
  - rewrite !elem_of_nil. tauto.
  - destruct (decide (y ∈ seen)) as [Hy|Hy].
    + rewrite IH, elem_of_cons. split; [tauto |].
      intros [[->|Hx] Hseen]; [done | tauto].
    + rewrite !elem_of_cons, IH, elem_of_cons.
      destruct (decide (x = y)) as [->|Hne]; tauto.
Qed.

Lemma elem_of_unique {A} `{EqDecision A} (l : list A) x :
  x ∈ unique l ↔ x ∈ l.
Proof.
  unfold unique. rewrite elem_of_unique_from, elem_of_nil. tauto.
Qed.

Lemma NoDup_unique_from {A} `{EqDecision A} (seen l : list A) :
  NoDup (unique_from seen l).
Proof.
  revert seen. induction l as [|y l IH]; intros seen; cbn [unique_from].
  - constructor.
  - destruct (decide (y ∈ seen)); [apply IH |].
    constructor; [| apply IH].
    rewrite elem_of_unique_from, elem_of_cons. tauto.
Qed.

Lemma NoDup_unique {A} `{EqDecision A} (l : list A) : NoDup (unique l).
Proof. apply NoDup_unique_from. Qed.

Lemma strftime_B_in_month_order t : strftime_B t ∈ month_order.
Proof.
  unfold strftime_B, month_order.
  destruct (month t); repeat first [apply list_elem_of_here | apply list_elem_of_further].
Qed.

Lemma filter_all {A} (P : A → Prop) `{∀ x, Decision (P x)} (l : list A) :
  (∀ x, x ∈ l → P x) → filter P l = l.
Proof.
  induction l as [|x l IH]; intros Hall; [done |].
  rewrite filter_cons_True by (apply Hall, list_elem_of_here).
  f_equal. apply IH. intros y Hy. by apply Hall, list_elem_of_further.
Qed.

Lemma filter_ext_in {A} (P Q : A → Prop)
    `{∀ x, Decision (P x)} `{∀ x, Decision (Q x)} (l : list A) :
  (∀ x, x ∈ l → P x ↔ Q x) → filter P l = filter Q l.
Proof.
  induction l as [|x l IH]; intros Hall; [done |].
  rewrite !filter_cons, IH
    by (intros y Hy; by apply Hall, list_elem_of_further).
  pose proof (Hall x (list_elem_of_here _ _)) as Hx.
  destruct (decide (P x)), (decide (Q x)); tauto.
Qed.

(** Every loaded record carries the month name of its own date, or NaN when
    it has no date. *)
Lemma month_of_loaded csv r :
  r ∈ rows (load_data csv) → at_col "Month" r = month_name (Date r).
Proof.
  intros Hr%month_lookup_loaded. unfold at_col. by rewrite Hr.
Qed.

Lemma available_months_loaded csv r t :
  r ∈ rows (load_data csv) → Date r = Stamp t →
  strftime_B t ∈ available_months (load_data csv).
Proof.
  intros Hr Ht. unfold available_months. apply list_elem_of_filter.
  split; [| apply strftime_B_in_month_order].
  apply elem_of_unique, list_elem_of_fmap. exists r.
  split; [| done]. rewrite (month_of_loaded csv) by done. by rewrite Ht.
Qed.

(** The default selections keep a loaded record exactly when it has a
    date. *)
Lemma default_mask_loaded csv r :
  r ∈ rows (load_data csv) →
  mask (available_months (load_data csv))
       (department_options (load_data csv)) r = true
  ↔ Date r ≠ NaT.
Proof.
  intros Hr. rewrite mask_true, (month_of_loaded csv) by done. split.
  - intros [(m & Hm & _) _]. destruct (Date r); [done | discriminate].
  - intros Hdate. destruct (Date r) as [t|] eqn:Ht; [| done]. split.
    + exists (strftime_B t). split; [done |].
      by apply (available_months_loaded csv r).
    + unfold department_options. apply elem_of_unique, list_elem_of_fmap.
      by exists r.
Qed.

Lemma filtered_df_defaults csv :
  filtered_df (load_data csv)
    (available_months (load_data csv)) (department_options (load_data csv))
  = dated (load_data csv).
Proof.
  unfold filtered_df, dated, loc. f_equal. apply filter_ext_in.
  intros r Hr. rewrite !Is_true_true, bool_decide_eq_true.
  by apply default_mask_loaded.
Qed.

Lemma dated_all df :
  dated df = df ↔ ∀ r, r ∈ rows df → Date r ≠ NaT.
Proof.
  unfold dated, loc. destruct df as [cols rs]. cbn [columns rows]. split.
  - intros [= Hrs] r Hr. rewrite <- Hrs in Hr.
    apply list_elem_of_filter in Hr as [Hdate _].
    by apply Is_true_true, bool_decide_eq_true in Hdate.
  - intros Hall. f_equal. apply filter_all. intros r Hr.
    by apply Is_true_true, bool_decide_eq_true, Hall.
Qed.

Lemma dates_loaded csv : Date <$> rows (load_data csv) = Date <$> rows csv.
Proof.
  unfold load_data, enrich. cbv zeta.
  destruct (negb (has_column (assign "Month" _ csv) "Bin_Color"));
    unfold assign; cbn [rows]; rewrite <- !list_fmap_compose; done.
Qed.

Lemma all_dated_loaded csv :
  (∀ r, r ∈ rows (load_data csv) → Date r ≠ NaT)
  ↔ (∀ r, r ∈ rows csv → Date r ≠ NaT).
Proof.
  assert (Hiff : ∀ l : list Row,
            (∀ r, r ∈ l → Date r ≠ NaT) ↔ NaT ∉ Date <$> l).
  { intros l. rewrite list_elem_of_fmap. split.
    - intros Hall (r & Hr & Hin). by apply (Hall r).
    - intros Hno r Hr Hnat. apply Hno. by exists r. }
  by rewrite !Hiff, dates_loaded.
Qed.

(** C6 as stated fails: a record with an empty [Date] cell has no month, so
    the default month selection leaves it out and the default filter
    returns one of the two records. *)
Lemma default_filter_drops_missing_date :
  length (rows (load_data sample_csv_no_date)) = 2%nat
  ∧ length
      (rows
         (filtered_df (load_data sample_csv_no_date)
            (available_months (load_data sample_csv_no_date))
            (department_options (load_data sample_csv_no_date)))) = 1%nat
  ∧ filtered_df (load_data sample_csv_no_date)
      (available_months (load_data sample_csv_no_date))
      (department_options (load_data sample_csv_no_date))
    ≠ load_data sample_csv_no_date.
Proof.
  split; [reflexivity |]. split; [reflexivity |].
  intros Heq. apply (f_equal (λ df, length (rows df))) in Heq.
  vm_compute in Heq. discriminate.
Qed.

(** C6, amended. With the default selections, the months of [month_order]
    present in the loaded frame and its distinct departments, the filter
    returns the loaded records that have a [Date], in their order, and so
    the loaded frame itself exactly when no record of the file lacks its
    [Date]; with an empty month selection or an empty department selection
    it returns no record. *)
Theorem default_filter_keeps_dated (csv : DataFrame)
    (M : list string) (D : list cell) :
  filtered_df (load_data csv)
    (available_months (load_data csv)) (department_options (load_data csv))
  = dated (load_data csv)
  ∧ (filtered_df (load_data csv)
       (available_months (load_data csv)) (department_options (load_data csv))
     = load_data csv
     ↔ ∀ r, r ∈ rows csv → Date r ≠ NaT)
  ∧ rows (filtered_df (load_data csv) [] D) = []
  ∧ rows (filtered_df (load_data csv) M []) = [].
Proof.
  split; [apply filtered_df_defaults |].
  split; [| split; [apply filtered_df_no_months
                   | apply filtered_df_no_departments]].
  by rewrite filtered_df_defaults, dated_all, all_dated_loaded.
Qed.

(** ** Groups and records *)

Section grouped_frames.
Context {K : Type} `{EqDecision K}.
Context (le : relation K) `{∀ x y, Decision (le x y)}.
Context (key : Row → option K).

Lemma groupby_sum_keys (l : list Row) :
  (λ p, p.1) <$> groupby_sum le key l = merge_sort le (unique (omap key l)).
Proof.
  unfold groupby_sum. rewrite <- list_fmap_compose. apply list_fmap_id.
Qed.

Lemma groupby_sum_keys_NoDup (l : list Row) :
  NoDup ((λ p, p.1) <$> groupby_sum le key l).
Proof.
  rewrite groupby_sum_keys, merge_sort_Permutation. apply NoDup_unique.
Qed.

Lemma elem_of_groupby_sum_keys (l : list Row) (k : K) :
  k ∈ (λ p, p.1) <$> groupby_sum le key l ↔ ∃ r, r ∈ l ∧ key r = Some k.
Proof.
  rewrite groupby_sum_keys, merge_sort_Permutation, elem_of_unique.
  apply list_elem_of_omap.
Qed.

Lemma groupby_sum_keys_Sorted `{!Total le} (l : list Row) :
  Sorted le ((λ p, p.1) <$> groupby_sum le key l).
Proof. rewrite groupby_sum_keys. by apply Sorted_merge_sort. Qed.

Lemma elem_of_groupby_sum (l : list Row) (k : K) (w : float) :
  (k, w) ∈ groupby_sum le key l → w = group_total key l k.
Proof.
  unfold groupby_sum. rewrite list_elem_of_fmap.
  by intros (k' & [= -> ->] & _).
Qed.

(** Putting a record into the group of its key puts it once into the
    groups of distinct keys that hold its key. *)
Lemma bind_bump (g : K → list Row) (r : Row) (k0 : K) (ks : list K) :
  NoDup ks → k0 ∈ ks →
  ks ≫= (λ k, if decide (k0 = k) then r :: g k else g k)
  ≡ₚ r :: (ks ≫= g).
Proof.
  induction 1 as [|k ks Hk Hnodup IH]; intros Hin.
  { by apply elem_of_nil in Hin. }
  cbn [mbind list_bind]. destruct (decide (k0 = k)) as [->|Hne].
  - cbn [app]. constructor. apply Permutation_app_head.
    assert (Hsame : ks ≫= (λ k', if decide (k = k') then r :: g k' else g k')
                    = ks ≫= g).
    { apply Forall_bind_ext, Forall_forall. intros k' Hk'.
      rewrite decide_False; [done |]. intros ->. done. }
    by rewrite Hsame.
  - apply elem_of_cons in Hin as [?|Hin]; [done |].
    rewrite IH by done. by rewrite Permutation_middle.
Qed.

Lemma group_rows_cons_Some r l k0 k :
  key r = Some k0 →
  group_rows key (r :: l) k
  = if decide (k0 = k) then r :: group_rows key l k else group_rows key l k.
Proof.
  intros Hkey. unfold group_rows.
  destruct (decide (k0 = k)) as [->|Hne].
  - by rewrite filter_cons_True.
  - rewrite filter_cons_False; [done |]. congruence.
Qed.

Lemma group_rows_cons_None r l k :
  key r = None → group_rows key (r :: l) k = group_rows key l k.
Proof.
  intros Hkey. unfold group_rows.
  rewrite filter_cons_False; [done |]. congruence.
Qed.

(** The groups of distinct keys that cover the rows hold, between them,
    each row that has a key once and no other row. *)
Lemma groups_partition (l : list Row) (ks : list K) :
  NoDup ks →
  (∀ k, k ∈ omap key l → k ∈ ks) →
  ks ≫= group_rows key l ≡ₚ filter (λ r, is_Some (key r)) l.
Proof.
  intros Hnodup. induction l as [|r l IH]; intros Hcover.
  - clear Hcover. induction ks as [|k ks IHks]; [done |].
    cbn [mbind list_bind]. apply NoDup_cons in Hnodup as [_ ?].
    by rewrite IHks.
  - destruct (key r) as [k0|] eqn:Hkey.
    + rewrite filter_cons_True by (rewrite Hkey; by eexists).
      rewrite <- IH.
      * erewrite list_bind_ext; [apply (bind_bump (group_rows key l)) | | done].
        -- done.
        -- apply Hcover. cbn [omap list_omap]. rewrite Hkey.
           apply list_elem_of_here.
        -- intros k. cbn beta. by apply group_rows_cons_Some.
      * intros k Hk. apply Hcover. cbn [omap list_omap]. rewrite Hkey.
        by apply list_elem_of_further.
    + rewrite filter_cons_False by (rewrite Hkey; by intros [? ?]).
      rewrite <- IH.
      * erewrite list_bind_ext; [reflexivity | | done].
        intros k. by apply group_rows_cons_None.
      * intros k Hk. apply Hcover. cbn [omap list_omap]. by rewrite Hkey.
Qed.

Lemma groupby_sum_partition (l : list Row) :
  ((λ p, p.1) <$> groupby_sum le key l) ≫= group_rows key l
  ≡ₚ filter (λ r, is_Some (key r)) l.
Proof.
  rewrite groupby_sum_keys, merge_sort_Permutation.
  apply groups_partition; [apply NoDup_unique |].
  intros k Hk. by apply elem_of_unique.
Qed.
End grouped_frames.

#[global] Instance str_le_total : Total str_le.
Proof.
  intros a b. unfold str_le.
  destruct (String.leb_total a b) as [Hab|Hba]; [left | right];
    by apply Is_true_true.
Qed.

#[global] Instance float_le_total : Total float_le.
Proof.
  intros x y. unfold float_le.
  destruct (Z.lt_trichotomy (float_class x) (float_class y)) as [?|[Heq|?]];
    [left; by left | | right; by left].
  destruct (decide (float_class x = 0%Z)) as [Hzero|Hnz].
  - destruct (Qlt_le_dec (float_Q y) (float_Q x)) as [Hlt|Hle].
    + right. right. split; [done |]. right. by apply Qlt_le_weak.
    + left. right. split; [done |]. by right.
  - left. right. split; [done |]. by left.
Qed.

#[global] Instance float_ge_nan_last_total : Total float_ge_nan_last.
Proof.
  intros x y. unfold float_ge_nan_last.
  destruct (decide (float_class y = 2%Z)) as [?|Hy]; [left; by left |].
  destruct (decide (float_class x = 2%Z)) as [?|Hx]; [right; by left |].
  destruct (float_le_total x y) as [?|?]; [right | left]; by right.
Qed.

Lemma weight_le_total {K} : Total (λ a b : K * float, float_le a.2 b.2).
Proof. intros a b. apply float_le_total. Qed.

Lemma weight_ge_total {K} :
  Total (λ a b : K * float, float_ge_nan_last a.2 b.2).
Proof. intros a b. apply float_ge_nan_last_total. Qed.

Lemma sort_by_weight_Permutation {K} ascending (g : list (K * float)) :
  sort_by_weight ascending g ≡ₚ g.
Proof.
  unfold sort_by_weight. destruct ascending; apply merge_sort_Permutation.
Qed.

Lemma sort_by_weight_keys {K} ascending (g : list (K * float)) :
  (λ p, p.1) <$> sort_by_weight ascending g ≡ₚ (λ p, p.1) <$> g.
Proof. apply fmap_Permutation, sort_by_weight_Permutation. Qed.

Lemma cell_key_Some v s : cell_key v = Some s ↔ v = Str s.
Proof. destruct v; cbn; split; congruence. Qed.

Lemma cell_key_is_Some v : is_Some (cell_key v) ↔ v ≠ NaN.
Proof.
  destruct v; cbn.
  - split; [done | by eexists].
  - split; [by intros [? ?] | done].
Qed.

Lemma dept_group_value fdf d w :
  (d, w) ∈ dept_group fdf →
  w = group_sum
        (Weight_kg <$> filter (λ r, Department r = Str d) (rows fdf)).
Proof.
  unfold dept_group. intros Hin. rewrite sort_by_weight_Permutation in Hin.
  apply elem_of_groupby_sum in Hin as ->.
  unfold group_total, group_rows. do 2 f_equal.
  apply list_filter_iff. intros r. apply cell_key_Some.
Qed.

Lemma dept_group_partition fdf :
  ((λ p, p.1) <$> dept_group fdf)
    ≫= (λ d, filter (λ r, Department r = Str d) (rows fdf))
  ≡ₚ filter (λ r, Department r ≠ NaN) (rows fdf).
Proof.
  unfold dept_group. rewrite sort_by_weight_keys.
  erewrite list_filter_iff; last first.
  { intros r. symmetry. apply (cell_key_is_Some (Department r)). }
  rewrite <- (groupby_sum_partition str_le department_key).
  erewrite list_bind_ext; [reflexivity | | done].
  intros d. unfold group_rows. apply list_filter_iff. intros r.
  symmetry. apply cell_key_Some.
Qed.

(** ** The by-department view and the total *)

(** C4 as stated fails twice over.  A record with an empty [Department]
    cell passes the default filter and is in the total, 15.75, but in no
    group, so the groups add up to 12.5.  And with every department present
    the two float sums are taken in different orders: for weights of one,
    two and four tenths the total is 0.7000000000000001 and the groups, 0.2
    and 0.5, add up to 0.7. *)
Lemma by_department_misses_total :
  Series_sum
    ((λ p, p.2)
       <$> dept_group
             (filtered_df (load_data sample_csv_no_department)
                (available_months (load_data sample_csv_no_department))
                (department_options (load_data sample_csv_no_department))))
  ≠ total_waste
      (filtered_df (load_data sample_csv_no_department)
         (available_months (load_data sample_csv_no_department))
         (department_options (load_data sample_csv_no_department)))
  ∧ Series_sum
      ((λ p, p.2)
         <$> dept_group
               (filtered_df (load_data sample_csv_tenths)
                  (available_months (load_data sample_csv_tenths))
                  (department_options (load_data sample_csv_tenths))))
    ≠ total_waste
        (filtered_df (load_data sample_csv_tenths)
           (available_months (load_data sample_csv_tenths))
           (department_options (load_data sample_csv_tenths))).
Proof.
  split; vm_compute; intros Heq; discriminate Heq.
Qed.

(** C4, amended. For every file and every selection of months and
    departments, the by-department view adds, group by group, the weights
    of exactly the filtered records that have a [Department]: the groups of
    its lines hold each such record once and no other record, and the value
    of a line is the sum of the weights of the records of its department.
    A record without a [Department] is in no group, though the total counts
    it: the groups hold all the filtered records exactly when none of them
    lacks a [Department]. *)
Theorem by_department_partitions_records (csv : DataFrame)
    (M : list string) (D : list cell) :
  ((λ p, p.1) <$> dept_group (filtered_df (load_data csv) M D))
    ≫= (λ d, filter (λ r, Department r = Str d)
               (rows (filtered_df (load_data csv) M D)))
  ≡ₚ filter (λ r, Department r ≠ NaN)
       (rows (filtered_df (load_data csv) M D))
  ∧ (∀ d w, (d, w) ∈ dept_group (filtered_df (load_data csv) M D) →
       w = group_sum
             (Weight_kg
                <$> filter (λ r, Department r = Str d)
                      (rows (filtered_df (load_data csv) M D))))
  ∧ (((λ p, p.1) <$> dept_group (filtered_df (load_data csv) M D))
       ≫= (λ d, filter (λ r, Department r = Str d)
                  (rows (filtered_df (load_data csv) M D)))
     ≡ₚ rows (filtered_df (load_data csv) M D)
     ↔ ∀ r, r ∈ rows (filtered_df (load_data csv) M D) →
            Department r ≠ NaN).
Proof.
  pose proof (dept_group_partition (filtered_df (load_data csv) M D))
    as Hgroups.
  split; [done |]. split; [apply dept_group_value |].
  rewrite Hgroups. split.
  - intros Hall r Hr. rewrite <- Hall in Hr.
    by apply list_elem_of_filter in Hr as [Hdept _].
  - intros Hall. by rewrite filter_all.
Qed.

(** ** The metrics of an empty selection *)

(** C2 as stated fails: for the selection January and ICU on a file without
    such a record the frame is empty and the average is displayed as
    nan kg. *)
Lemma empty_average_shows_nan :
  rows january_icu = []
  ∧ kpi3_value january_icu = "nan kg"
  ∧ ¬ nan_free (kpi3_value january_icu).
Proof.
  split; [reflexivity |]. split; [reflexivity |].
  intros Hfree. apply Hfree. by exists "", " kg".
Qed.

(** numpy's sum of zeros is zero, whatever their number. *)
Lemma sum_loop_zeros (a : list float) :
  Forall (λ w, w = 0%float) a → sum_loop 0%float a = 0%float.
Proof.
  unfold sum_loop. induction 1 as [|w a -> _ IH]; [done |].
  cbn [foldl]. exact IH.
Qed.

Lemma zip_with_add_zeros (r a : list float) :
  Forall (λ w, w = 0%float) r → Forall (λ w, w = 0%float) a →
  Forall (λ w, w = 0%float) (zip_with PrimFloat.add r a).
Proof.
  intros Hr. revert a. induction Hr as [|x r -> _ IH]; intros a Ha; [done |].
  destruct Ha as [|y a -> Ha]; [done |].
  cbn [zip_with]. constructor; [reflexivity | by apply IH].
Qed.

Lemma add_blocks_zeros (blocks : nat) (r a : list float) :
  Forall (λ w, w = 0%float) r → Forall (λ w, w = 0%float) a →
  Forall (λ w, w = 0%float) (add_blocks r a blocks).
Proof.
  revert r a. induction blocks as [|b IH]; intros r a Hr Ha; [done |].
  cbn [add_blocks]. apply IH; [| by apply Forall_drop].
  apply zip_with_add_zeros; [done | by apply Forall_take].
Qed.

Lemma lane_zeros (r : list float) (i : nat) :
  Forall (λ w, w = 0%float) r → default 0%float (r !! i) = 0%float.
Proof.
  intros Hr. destruct (r !! i) as [w|] eqn:Hw; [| done].
  cbn [default]. by apply (Forall_lookup_1 _ _ _ _ Hr Hw).
Qed.

Lemma sum_unrolled_zeros (a : list float) :
  Forall (λ w, w = 0%float) a → sum_unrolled a = 0%float.
Proof.
  intros Ha. unfold sum_unrolled. cbv zeta.
  rewrite !lane_zeros
    by (apply add_blocks_zeros; [by apply Forall_take | by apply Forall_drop]).
  change (((0 + 0) + (0 + 0)) + ((0 + 0) + (0 + 0)))%float with 0%float.
  by apply sum_loop_zeros, Forall_drop.
Qed.

Lemma pairwise_sum_zeros (fuel : nat) (a : list float) :
  Forall (λ w, w = 0%float) a → pairwise_sum fuel a = 0%float.
Proof.
  revert a. induction fuel as [|fuel IH]; intros a Ha; cbn [pairwise_sum];
    cbv zeta.
  - destruct (length a <? 8)%nat; [by apply sum_loop_zeros |].
    destruct (length a <=? 128)%nat; [by apply sum_unrolled_zeros | done].
  - destruct (length a <? 8)%nat; [by apply sum_loop_zeros |].
    destruct (length a <=? 128)%nat; [by apply sum_unrolled_zeros |].
    rewrite !IH by (by apply Forall_take || by apply Forall_drop).
    reflexivity.
Qed.

Lemma fillna_missing v (s : list float) :
  Forall (λ w, isna w = true) s → Forall (λ w, w = v) (fillna v s).
Proof.
  intros Hs. unfold fillna. apply Forall_fmap.
  eapply Forall_impl; [exact Hs |]. intros w Hw. cbn. by rewrite Hw.
Qed.

Lemma Series_sum_missing (s : list float) :
  Forall (λ w, isna w = true) s → Series_sum s = 0%float.
Proof.
  intros Hs. unfold Series_sum, np_sum.
  rewrite pairwise_sum_zeros by by apply fillna_missing.
  reflexivity.
Qed.

Lemma count_missing (s : list float) :
  Forall (λ w, isna w = true) s → count s = 0%nat.
Proof.
  intros Hs. unfold count. induction Hs as [|w s Hw _ IH]; [done |].
  rewrite filter_cons_False; [done |]. by rewrite Hw.
Qed.

(** Without a weight that is present, the sums are 0 and the mean and the
    maximum are NaN. *)
Lemma key_metrics_no_weight (fdf : DataFrame) :
  Forall (λ w, isna w = true) (Weight_kg <$> rows fdf) →
  key_metrics fdf
  = [ st_subheader "Key Metrics";
      st_metric "Total Waste Volume" "0.0 kg" (Some "Accumulated");
      st_metric "Infectious Waste" "0.0 kg" (Some "Biohazard Risk");
      st_metric "Avg. Daily Output" "nan kg" None;
      st_metric "Max Recorded Spike" "nan kg" None ].
Proof.
  intros Hmissing. unfold key_metrics.
  unfold kpi1_value, kpi2_value, kpi3_value, kpi4_value.
  unfold total_waste, infectious_waste, avg_daily, max_waste.
  unfold Series_mean, Series_max.
  assert (Hinf : Forall (λ w, isna w = true)
                   (Weight_kg
                      <$> rows (loc (λ r, cell_eq_str (Infectious r) "Yes")
                                  fdf))).
  { apply Forall_fmap, Forall_forall. intros r Hr.
    apply list_elem_of_filter in Hr as [_ Hr].
    apply Forall_fmap in Hmissing.
    by apply (proj1 (Forall_forall _ _) Hmissing). }
  rewrite !Series_sum_missing, count_missing by done.
  reflexivity.
Qed.

(** C2, amended. On a frame without records the four metrics are rendered:
    the two sums show as 0.0 kg, and the mean and the maximum, which are NaN
    on an empty series, show as nan kg. *)
Theorem empty_key_metrics (fdf : DataFrame) :
  rows fdf = [] →
  key_metrics fdf
  = [ st_subheader "Key Metrics";
      st_metric "Total Waste Volume" "0.0 kg" (Some "Accumulated");
      st_metric "Infectious Waste" "0.0 kg" (Some "Biohazard Risk");
      st_metric "Avg. Daily Output" "nan kg" None;
      st_metric "Max Recorded Spike" "nan kg" None ].
Proof.
  intros Hempty. apply key_metrics_no_weight. by rewrite Hempty.
Qed.

Lemma empty_key_metrics_witness :
  rows january_icu = []
  ∧ key_metrics january_icu
    = [ st_subheader "Key Metrics";
        st_metric "Total Waste Volume" "0.0 kg" (Some "Accumulated");
        st_metric "Infectious Waste" "0.0 kg" (Some "Biohazard Risk");
        st_metric "Avg. Daily Output" "nan kg" None;
        st_metric "Max Recorded Spike" "nan kg" None ].
Proof.
  split; [reflexivity |].
  exact (empty_key_metrics january_icu eq_refl).
Defined.

(** ** Writing and reading the CSV text *)

Lemma append_nil_r (s : string) : s +:+ "" = s.
Proof. induction s as [|c s IH]; [done |]. by rewrite append_String, IH. Qed.

Lemma append_assoc (a b c : string) : (a +:+ b) +:+ c = a +:+ (b +:+ c).
Proof. induction a as [|x a IH]; [done |]. by rewrite !append_String, IH. Qed.

Lemma snoc_char_append acc c s : snoc_char acc c +:+ s = acc +:+ String c s.
Proof. unfold snoc_char. by rewrite append_assoc. Qed.

Lemma kind_of_Quote c : kind_of c = Quote ↔ c = dquote.
Proof.
  unfold kind_of. split.
  - destruct (Ascii.eqb_spec c ","%char); [done |].
    destruct (Ascii.eqb_spec c dquote); [done |].
    destruct (Ascii.eqb_spec c newline); [done |].
    by destruct (Ascii.eqb_spec c carriage_return).
  - by intros ->.
Qed.

Lemma kind_of_Plain c :
  special c = false → c ≠ carriage_return → kind_of c = Plain.
Proof.
  unfold special. rewrite bool_decide_eq_false, !elem_of_cons, elem_of_nil.
  intros Hspecial Hcr. unfold kind_of.
  destruct (Ascii.eqb_spec c ","%char); [tauto |].
  destruct (Ascii.eqb_spec c dquote); [tauto |].
  destruct (Ascii.eqb_spec c newline); [tauto |].
  by destruct (Ascii.eqb_spec c carriage_return).
Qed.

(** Inside quotes the reader takes every character, and a doubled quote as
    one quote, up to the closing quote. *)
Lemma read_quoted (f acc : string) rec rest :
  read_records InQuoted rec acc (double_quotes f +:+ String dquote rest)
  = read_records QuoteSeen rec (acc +:+ f) rest.
Proof.
  revert acc. induction f as [|c f IH]; intros acc.
  - by rewrite append_nil_r.
  - cbn [double_quotes]. destruct (Ascii.eqb_spec c dquote) as [-> | Hne].
    + rewrite !append_String. cbn [read_records].
      change (kind_of dquote) with Quote. cbn match.
      by rewrite IH, snoc_char_append.
    + rewrite append_String. cbn [read_records].
      destruct (kind_of c) eqn:Hkind;
        try (by rewrite IH, snoc_char_append).
      by apply kind_of_Quote in Hkind.
Qed.

Lemma read_separator st rec acc t rest :
  st = StartField ∨ st = InField ∨ st = QuoteSeen →
  t = ","%char ∨ t = newline →
  read_records st rec acc (String t rest) = after_field rec acc t rest.
Proof. intros [-> | [-> | ->]] [-> | ->]; reflexivity. Qed.

(** Outside quotes the reader takes plain characters up to a separator. *)
Lemma read_plain (f acc : string) rec t rest :
  (∀ c, c ∈ String.list_ascii_of_string f → kind_of c = Plain) →
  t = ","%char ∨ t = newline →
  read_records InField rec acc (f +:+ String t rest)
  = after_field rec (acc +:+ f) t rest.
Proof.
  intros Hplain Ht. revert acc. induction f as [|c f IH]; intros acc.
  - rewrite append_nil_r. apply read_separator; auto.
  - rewrite append_String. cbn [read_records].
    rewrite (Hplain c) by apply list_elem_of_here. cbn match.
    rewrite IH, snoc_char_append; [done |].
    intros c' Hc'. by apply Hplain, list_elem_of_further.
Qed.

Lemma existsb_special_false f :
  existsb special (String.list_ascii_of_string f) = false →
  ∀ c, c ∈ String.list_ascii_of_string f → special c = false.
Proof.
  intros Hnone c Hc. destruct (special c) eqn:Hs; [| done].
  assert (existsb special (String.list_ascii_of_string f) = true)
    as Hsome; [| congruence].
  apply existsb_exists. exists c. split; [| done]. by apply list_elem_of_In.
Qed.

(** A written field is read back, from the start of a field. *)
Lemma read_field_next (f : string) rec t rest :
  no_carriage_return f →
  t = ","%char ∨ t = newline →
  read_records StartField rec "" (csv_quote f +:+ String t rest)
  = after_field rec f t rest.
Proof.
  intros Hcr Ht. unfold csv_quote.
  destruct (existsb special (String.list_ascii_of_string f)) eqn:Hspecial.
  - rewrite append_String, append_assoc, append_String. cbn [read_records].
    change (kind_of dquote) with Quote. cbn match.
    rewrite read_quoted. apply read_separator; auto.
  - pose proof (existsb_special_false f Hspecial) as Hplain.
    destruct f as [|c f]; [apply read_separator; auto |].
    rewrite append_String. cbn [read_records].
    assert (Hall : ∀ c', c' ∈ String.list_ascii_of_string (String c f) →
                         kind_of c' = Plain).
    { intros c' Hc'. apply kind_of_Plain; [by apply Hplain |].
      intros ->. by apply Hcr. }
    rewrite (Hall c) by apply list_elem_of_here. cbn match.
    rewrite read_plain; [done | | done].
    intros c' Hc'. by apply Hall, list_elem_of_further.
Qed.

(** The same from the start of a record, where an empty field before a line
    feed would read as an empty line. *)
Lemma read_field_first (f : string) t rest :
  no_carriage_return f →
  t = ","%char ∨ t = newline →
  f ≠ "" ∨ t = ","%char →
  read_records StartRecord [] "" (csv_quote f +:+ String t rest)
  = after_field [] f t rest.
Proof.
  intros Hcr Ht Hfirst. unfold csv_quote.
  destruct (existsb special (String.list_ascii_of_string f)) eqn:Hspecial.
  - rewrite append_String, append_assoc, append_String. cbn [read_records].
    change (kind_of dquote) with Quote. cbn match.
    rewrite read_quoted. apply read_separator; auto.
  - pose proof (existsb_special_false f Hspecial) as Hplain.
    destruct f as [|c f].
    { destruct Hfirst as [? | ->]; [done | reflexivity]. }
    rewrite append_String. cbn [read_records].
    assert (Hall : ∀ c', c' ∈ String.list_ascii_of_string (String c f) →
                         kind_of c' = Plain).
    { intros c' Hc'. apply kind_of_Plain; [by apply Hplain |].
      intros ->. by apply Hcr. }
    rewrite (Hall c) by apply list_elem_of_here. cbn match.
    rewrite read_plain; [done | | done].
    intros c' Hc'. by apply Hall, list_elem_of_further.
Qed.

Lemma concat_cons_cons sep (x y : string) l :
  String.concat sep (x :: y :: l) = x +:+ sep +:+ String.concat sep (y :: l).
Proof. reflexivity. Qed.

Lemma read_fields_next (fs : list string) (f : string) rec rest :
  Forall no_carriage_return (f :: fs) →
  read_records StartField rec ""
    (String.concat "," (csv_quote <$> f :: fs) +:+ String newline rest)
  = (rec ++ f :: fs)%list :: read_records StartRecord [] "" rest.
Proof.
  revert f rec. induction fs as [|f2 fs IH]; intros f rec Hcr.
  - apply Forall_cons in Hcr as [Hf _].
    cbn [fmap list_fmap String.concat].
    rewrite read_field_next by auto. reflexivity.
  - apply Forall_cons in Hcr as [Hf Hcr].
    rewrite !fmap_cons, concat_cons_cons, !append_assoc, <- !fmap_cons.
    change ("," +:+ ?s) with (String ","%char s).
    rewrite read_field_next by auto. unfold after_field. cbn [Ascii.eqb].
    change (Ascii.eqb ","%char ","%char) with true. cbn match.
    rewrite IH by done. by rewrite <- app_assoc.
Qed.

Lemma read_fields_first (fs : list string) (f : string) rest :
  Forall no_carriage_return (f :: fs) →
  f :: fs ≠ [""] →
  read_records StartRecord [] ""
    (String.concat "," (csv_quote <$> f :: fs) +:+ String newline rest)
  = (f :: fs) :: read_records StartRecord [] "" rest.
Proof.
  intros Hcr Hlone. apply Forall_cons in Hcr as [Hf Hcr].
  destruct fs as [|f2 fs].
  - cbn [fmap list_fmap String.concat].
    rewrite read_field_first; [reflexivity | done | auto |].
    left. intros ->. done.
  - rewrite !fmap_cons, concat_cons_cons, !append_assoc, <- !fmap_cons.
    change ("," +:+ ?s) with (String ","%char s).
    rewrite read_field_first by auto. unfold after_field.
    change (Ascii.eqb ","%char ","%char) with true. cbn match.
    by rewrite read_fields_next.
Qed.

(** One written line is read back as one record. *)
Lemma read_line (fields : list string) rest :
  Forall no_carriage_return fields →
  read_records StartRecord [] "" (csv_line fields +:+ rest)
  = fields :: read_records StartRecord [] "" rest.
Proof.
  intros Hcr. destruct fields as [|f fs]; [reflexivity |].
  destruct (decide (f :: fs = [""])) as [[= -> ->] | Hlone]; [reflexivity |].
  assert (Hline : csv_line (f :: fs)
                  = String.concat "," (csv_quote <$> f :: fs)
                    +:+ String newline "").
  { unfold csv_line. destruct f; [| done]. by destruct fs. }
  rewrite Hline, append_assoc. change (String newline "" +:+ rest)
    with (String newline rest).
  by apply read_fields_first.
Qed.

Lemma concat_empty_cons (x : string) l :
  String.concat "" (x :: l) = x +:+ String.concat "" l.
Proof. destruct l; [by rewrite append_nil_r | reflexivity]. Qed.

(** Reading what was written gives the records back, when no field holds a
    carriage return. *)
Lemma read_written (records : list (list string)) :
  Forall (Forall no_carriage_return) records →
  csv_reader (String.concat "" (csv_line <$> records)) = records.
Proof.
  unfold csv_reader. induction 1 as [|fields records Hcr _ IH]; [done |].
  rewrite fmap_cons, concat_empty_cons, read_line by done. by rewrite IH.
Qed.

(** ** The page *)

Lemma has_column_load_data_ne csv c :
  c ≠ "Month" → c ≠ "Bin_Color" →
  has_column (load_data csv) c = has_column csv c.
Proof.
  intros Hmonth Hbin. unfold load_data, enrich.
  destruct (has_column (assign "Month" _ csv) "Bin_Color"); cbn [negb].
  - by rewrite has_column_assign_ne.
  - by rewrite !has_column_assign_ne.
Qed.

Lemma has_column_filtered_df df M D c :
  has_column (filtered_df df M D) c = has_column df c.
Proof. reflexivity. Qed.

Section page.
Variable repr_float : float → string.

(** C9. When the file has no [Waste_Type] column, the by-waste-type chart
    is replaced by the warning "Waste_Type column missing." and no such
    chart is drawn, while the page still holds every other view: the four
    metrics, the infectious ratio, the by-department bars, the bin-color
    ring, the department by infectious bars, the daily trend, the raw data
    and its download. *)
Theorem missing_waste_type_degrades_one_view
    (csv : DataFrame) (M : list string) (D : list cell) :
  "Waste_Type" ∉ columns csv →
  st_warning "Waste_Type column missing." ∈ app repr_float csv M D
  ∧ (∀ data, st_plotly_chart (px_bar "Waste_Type" "Weight_kg" data)
             ∉ app repr_float csv M D)
  ∧ (∀ e,
       e ∈ [ st_metric "Total Waste Volume"
               (kpi1_value (filtered_df (load_data csv) M D))
               (Some "Accumulated");
             st_metric "Infectious Waste"
               (kpi2_value (filtered_df (load_data csv) M D))
               (Some "Biohazard Risk");
             st_metric "Avg. Daily Output"
               (kpi3_value (filtered_df (load_data csv) M D)) None;
             st_metric "Max Recorded Spike"
               (kpi4_value (filtered_df (load_data csv) M D)) None;
             st_plotly_chart
               (px_pie "Infectious" "Weight_kg"
                  ((λ r, ([Infectious r], Weight_kg r))
                     <$> rows (filtered_df (load_data csv) M D)));
             st_plotly_chart
               (px_bar "Weight_kg" "Department"
                  (one_label id
                     (dept_group (filtered_df (load_data csv) M D))));
             st_plotly_chart
               (px_pie "Bin_Color" "Weight_kg"
                  (one_label id
                     (bin_group (filtered_df (load_data csv) M D))));
             st_plotly_chart
               (px_bar "Department" "Weight_kg"
                  ((λ p, ([Str p.1.1; Str p.1.2], p.2))
                     <$> grouped_df (filtered_df (load_data csv) M D)));
             st_plotly_chart
               (px_area "Date" "Weight_kg"
                  (one_label isoformat
                     (trend_data (filtered_df (load_data csv) M D))));
             st_dataframe (filtered_df (load_data csv) M D);
             st_download_button "Download Filtered Data as CSV"
               (encode_utf8
                  (to_csv repr_float (filtered_df (load_data csv) M D)))
               "hospital_waste_audit_data.csv" "text/csv" ] →
       e ∈ app repr_float csv M D).
Proof.
  intros Hno%has_column_false.
  assert (Htype : has_column (filtered_df (load_data csv) M D) "Waste_Type"
                  = false).
  { by rewrite has_column_filtered_df, has_column_load_data_ne. }
  assert (Hbin : has_column (filtered_df (load_data csv) M D) "Bin_Color"
                 = true).
  { by rewrite has_column_filtered_df, has_column_load_data. }
  unfold app, composition, waste_type_view, bin_color_view.
  cbv zeta. rewrite Htype, Hbin.
  unfold controls, key_metrics, risk_and_department, comparative, timeline,
    audit_trail, credits.
  split; [| split].
  - on_the_page.
  - intros data Hin. off_the_page Hin.
  - intros e He.
    repeat (apply elem_of_cons in He as [->|He]; [on_the_page |]).
    by apply elem_of_nil in He.
Qed.

Lemma csv_records_filtered (csv : DataFrame) (M : list string) (D : list cell) :
  csv_records repr_float (filtered_df (load_data csv) M D)
  = columns (load_data csv)
    :: ((λ r, field repr_float r <$> columns (load_data csv))
          <$> filter (λ r, mask M D r) (rows (load_data csv))).
Proof. reflexivity. Qed.

Lemma field_Month_loaded (csv : DataFrame) (r : Row) :
  r ∈ rows (load_data csv) →
  field repr_float r "Month" = cell_text (month_name (Date r)).
Proof.
  intros Hr. unfold field. cbn [String.eqb Ascii.eqb Bool.eqb].
  by rewrite (month_of_loaded csv).
Qed.

(** C8. The page has one download button, and its payload is the UTF-8
    encoding, from which the text is recovered, of the CSV text of the
    filtered frame: the line of the labels of the enriched frame followed by
    one line per record that passes the filter, in the frame's order, and
    nothing else.  Each record has one field per label, and the fields are
    the texts of the record's own cells, the derived [Month] among them.
    When no field holds a carriage return, a CSV reader gets exactly these
    records back from the text. *)
Theorem export_is_filtered_frame
    (csv : DataFrame) (M : list string) (D : list cell) :
  (∀ label data file_name mime,
     st_download_button label data file_name mime ∈ app repr_float csv M D
     ↔ label = "Download Filtered Data as CSV"
       ∧ data = encode_utf8
                  (to_csv repr_float (filtered_df (load_data csv) M D))
       ∧ file_name = "hospital_waste_audit_data.csv"
       ∧ mime = "text/csv")
  ∧ decode_utf8
      (encode_utf8 (to_csv repr_float (filtered_df (load_data csv) M D)))
    = to_csv repr_float (filtered_df (load_data csv) M D)
  ∧ to_csv repr_float (filtered_df (load_data csv) M D)
    = csv_line (columns (load_data csv))
      +:+ String.concat ""
            ((λ r, csv_line (field repr_float r <$> columns (load_data csv)))
               <$> filter (λ r, mask M D r) (rows (load_data csv)))
  ∧ (Forall (Forall no_carriage_return)
       (csv_records repr_float (filtered_df (load_data csv) M D)) →
     csv_reader (to_csv repr_float (filtered_df (load_data csv) M D))
     = columns (load_data csv)
       :: ((λ r, field repr_float r <$> columns (load_data csv))
             <$> filter (λ r, mask M D r) (rows (load_data csv))))
  ∧ (∀ r, r ∈ rows (filtered_df (load_data csv) M D) →
       field repr_float r "Date" = date_text (Date r)
       ∧ field repr_float r "Department" = cell_text (Department r)
       ∧ field repr_float r "Weight_kg"
         = (if isna (Weight_kg r) then "" else repr_float (Weight_kg r))
       ∧ field repr_float r "Infectious" = cell_text (Infectious r)
       ∧ field repr_float r "Month" = cell_text (month_name (Date r))
       ∧ (∀ c, c ∉ ["Date"; "Department"; "Weight_kg"; "Infectious"] →
               field repr_float r c = cell_text (at_col c r)))
  ∧ Forall (λ record, length record = length (columns (load_data csv)))
      (csv_records repr_float (filtered_df (load_data csv) M D)).
Proof.
  split; [| split; [| split; [| split; [| split]]]].
  - intros label data file_name mime.
    unfold app, composition, waste_type_view, bin_color_view. cbv zeta.
    unfold controls, key_metrics, risk_and_department, comparative, timeline,
      audit_trail, credits.
    split.
    + intros Hin.
      destruct (has_column (filtered_df (load_data csv) M D) "Waste_Type");
        destruct (has_column (filtered_df (load_data csv) M D) "Bin_Color");
        the_button Hin.
    + intros (-> & -> & -> & ->). on_the_page.
  - apply String.string_of_list_byte_of_string.
  - unfold to_csv. rewrite csv_records_filtered, fmap_cons, concat_empty_cons.
    by rewrite <- list_fmap_compose.
  - intros Hcr. unfold to_csv. rewrite read_written by done.
    apply csv_records_filtered.
  - intros r Hr. repeat split.
    + apply elem_of_filtered_df in Hr as [Hr _].
      by apply (field_Month_loaded csv).
    + intros c Hc. unfold field.
      rewrite !elem_of_cons, elem_of_nil in Hc.
      destruct (String.eqb_spec c "Date"); [tauto |].
      destruct (String.eqb_spec c "Department"); [tauto |].
      destruct (String.eqb_spec c "Weight_kg"); [tauto |].
      destruct (String.eqb_spec c "Infectious"); [tauto | done].
  - rewrite csv_records_filtered. constructor; [done |].
    apply Forall_fmap, Forall_forall. intros r _. cbn.
    by rewrite length_fmap.
Qed.
End page.

Lemma missing_waste_type_degrades_one_view_witness :
  ("Waste_Type" ∉ columns sample_csv_no_type)
  ∧ st_warning "Waste_Type column missing."
    ∈ app sample_repr sample_csv_no_type ["March"] [Str "ICU"].
Proof.
  assert (Htype : "Waste_Type" ∉ columns sample_csv_no_type).
  { apply has_column_false. reflexivity. }
  split; [exact Htype |].
  exact (proj1 (missing_waste_type_degrades_one_view sample_repr
                  sample_csv_no_type ["March"] [Str "ICU"] Htype)).
Defined.

(** The export of the sample for March and January, ICU and ER, read
    back. *)
Lemma export_is_filtered_frame_witness :
  Forall (Forall no_carriage_return)
    (csv_records sample_repr
       (filtered_df (load_data sample_csv) ["March"; "January"]
          [Str "ICU"; Str "ER"]))
  ∧ csv_reader
      (to_csv sample_repr
         (filtered_df (load_data sample_csv) ["March"; "January"]
            [Str "ICU"; Str "ER"]))
    = [ [ "Date"; "Department"; "Weight_kg"; "Infectious"; "Waste_Type";
          "Month"; "Bin_Color" ];
        [ "2024-03-05"; "ICU"; "12.5"; "Yes"; "Sharps Container"; "March";
          "Red" ];
        [ "2024-03-06"; "ER"; "3.25"; "No"; "Recyclable Plastic"; "March";
          "Blue" ];
        [ "2024-01-10"; "ICU"; "7.0"; "Yes"; "Pathological"; "January";
          "Yellow" ] ].
Proof.
  assert (Hcr : Forall (Forall no_carriage_return)
                  (csv_records sample_repr
                     (filtered_df (load_data sample_csv) ["March"; "January"]
                        [Str "ICU"; Str "ER"]))).
  { apply (bool_decide_unpack _). by vm_compute. }
  split; [exact Hcr |].
  destruct (export_is_filtered_frame sample_repr sample_csv
              ["March"; "January"] [Str "ICU"; Str "ER"])
    as (_ & _ & _ & Hread & _).
  rewrite (Hread Hcr). vm_compute. reflexivity.
Defined.

(** ** More on the loader *)

Lemma rows_assign c f df :
  rows (assign c f df)
  = (λ r, mkRow (Date r) (Department r) (Weight_kg r) (Infectious r)
                (<[c := f r]> (other r))) <$> rows df.
Proof. reflexivity. Qed.

Lemma assign_keeps_fields c f df :
  Date <$> rows (assign c f df) = Date <$> rows df
  ∧ Department <$> rows (assign c f df) = Department <$> rows df
  ∧ Weight_kg <$> rows (assign c f df) = Weight_kg <$> rows df
  ∧ Infectious <$> rows (assign c f df) = Infectious <$> rows df.
Proof.
  rewrite rows_assign, <- !list_fmap_compose. repeat split.
Qed.

Lemma assign_keeps_other_columns c c' f df :
  c ≠ c' → at_col c' <$> rows (assign c f df) = at_col c' <$> rows df.
Proof.
  intros Hne. rewrite rows_assign, <- list_fmap_compose.
  apply list_fmap_ext. intros i r _. cbn. destruct r as [d dept w inf o].
  by apply at_col_assigned_ne.
Qed.

Lemma enrich_keeps_fields df :
  Date <$> rows (enrich df) = Date <$> rows df
  ∧ Department <$> rows (enrich df) = Department <$> rows df
  ∧ Weight_kg <$> rows (enrich df) = Weight_kg <$> rows df
  ∧ Infectious <$> rows (enrich df) = Infectious <$> rows df.
Proof.
  unfold enrich. destruct (negb (has_column df "Bin_Color")).
  - apply assign_keeps_fields.
  - done.
Qed.

Lemma enrich_keeps_other_columns c df :
  c ≠ "Bin_Color" → at_col c <$> rows (enrich df) = at_col c <$> rows df.
Proof.
  intros Hne. unfold enrich. destruct (negb (has_column df "Bin_Color")).
  - by apply assign_keeps_other_columns.
  - done.
Qed.

(** X1. The loader neither adds, drops nor reorders records, and it leaves
    [Date], [Department], [Weight_kg], [Infectious] and every object column
    other than [Month] and [Bin_Color] as they were read. *)
Theorem load_data_keeps_records (csv : DataFrame) :
  Date <$> rows (load_data csv) = Date <$> rows csv
  ∧ Department <$> rows (load_data csv) = Department <$> rows csv
  ∧ Weight_kg <$> rows (load_data csv) = Weight_kg <$> rows csv
  ∧ Infectious <$> rows (load_data csv) = Infectious <$> rows csv
  ∧ (∀ c, c ≠ "Month" → c ≠ "Bin_Color" →
          at_col c <$> rows (load_data csv) = at_col c <$> rows csv).
Proof.
  unfold load_data. cbv zeta.
  destruct (enrich_keeps_fields
              (assign "Month" (λ r, month_name (Date r)) csv))
    as (Hd & Hdept & Hw & Hi).
  destruct (assign_keeps_fields "Month" (λ r, month_name (Date r)) csv)
    as (Hd' & Hdept' & Hw' & Hi').
  rewrite Hd, Hdept, Hw, Hi. repeat split; try done.
  intros c Hmonth Hbin. rewrite enrich_keeps_other_columns by done.
  by apply assign_keeps_other_columns.
Qed.

Lemma columns_assign c f df :
  columns (assign c f df)
  = (columns df ++ (if has_column df c then [] else [c]))%list.
Proof.
  unfold assign. cbn [columns].
  destruct (has_column df c); [by rewrite app_nil_r | done].
Qed.

(** X2. The labels of the loaded frame are the labels of the file, in the
    file's order, followed by [Month] if the file had none and then by
    [Bin_Color] if the file had none. *)
Theorem load_data_columns (csv : DataFrame) :
  columns (load_data csv)
  = (columns csv
     ++ (if has_column csv "Month" then [] else ["Month"])
     ++ (if has_column csv "Bin_Color" then [] else ["Bin_Color"]))%list.
Proof.
  unfold load_data, enrich. cbv zeta.
  rewrite has_column_assign_ne by done.
  destruct (has_column csv "Bin_Color") eqn:Hbin; cbn [negb].
  - rewrite columns_assign. by rewrite app_nil_r.
  - rewrite columns_assign, has_column_assign_ne, Hbin by done.
    rewrite columns_assign. by rewrite <- app_assoc.
Qed.

(** X3. A [Bin_Color] column that comes with the file is taken over value
    by value; the classifier is not consulted, so a value that disagrees
    with the decision table stays. *)
Theorem load_data_keeps_given_bin_color (csv : DataFrame) :
  "Bin_Color" ∈ columns csv →
  at_col "Bin_Color" <$> rows (load_data csv)
  = at_col "Bin_Color" <$> rows csv.
Proof.
  intros Hbin%has_column_true. unfold load_data. cbv zeta.
  rewrite enrich_present by by rewrite has_column_assign_ne.
  by apply assign_keeps_other_columns.
Qed.

Lemma load_data_keeps_given_bin_color_witness :
  ("Bin_Color" ∈ columns sample_csv_binned)
  ∧ at_col "Bin_Color" <$> rows (load_data sample_csv_binned)
    = at_col "Bin_Color" <$> rows sample_csv_binned.
Proof.
  assert (Hbin : "Bin_Color" ∈ columns sample_csv_binned).
  { apply has_column_true. reflexivity. }
  split; [exact Hbin |].
  exact (load_data_keeps_given_bin_color sample_csv_binned Hbin).
Defined.

Lemma at_col_rows_assign c f df :
  at_col c <$> rows (assign c f df) = f <$> rows df.
Proof.
  rewrite rows_assign, <- list_fmap_compose.
  apply list_fmap_ext. intros i r _. cbn. apply at_col_assigned.
Qed.

(** X4. [Month] is always recomputed: whatever the file holds under that
    label, every loaded record carries the month of its own [Date].  A
    record without a [Date] has no [Month]; a record with a [Date] has one
    of the twelve names of [month_order]. *)
Theorem load_data_recomputes_month (csv : DataFrame) :
  at_col "Month" <$> rows (load_data csv)
  = (λ r, month_name (Date r)) <$> rows csv
  ∧ (∀ r, r ∈ rows (load_data csv) →
       (Date r = NaT ∧ at_col "Month" r = NaN)
       ∨ (∃ t, Date r = Stamp t
               ∧ at_col "Month" r = Str (strftime_B t)
               ∧ strftime_B t ∈ month_order)).
Proof.
  split.
  - unfold load_data. cbv zeta.
    rewrite enrich_keeps_other_columns by done. apply at_col_rows_assign.
  - intros r Hr. rewrite (month_of_loaded csv) by done.
    destruct (Date r) as [t|]; [right | by left].
    exists t. split; [done |]. split; [done |].
    apply strftime_B_in_month_order.
Qed.

(** X5. When the file has neither [Waste_Type] nor [Bin_Color], the
    classifier sees the empty string for every record, so only two bins
    occur: Yellow for "Yes" and Black for anything else. *)
Theorem no_waste_type_only_yellow_black (csv : DataFrame) (r : Row) :
  "Waste_Type" ∉ columns csv →
  "Bin_Color" ∉ columns csv →
  r ∈ rows (load_data csv) →
  at_col "Bin_Color" r
  = Str (if cell_eq_str (Infectious r) "Yes" then "Yellow" else "Black").
Proof.
  intros Htype%has_column_false Hbin%has_column_false Hr.
  apply elem_of_rows_load_data in Hr as (r0 & _ & ->); [| done].
  rewrite at_col_assigned, Htype. cbn [Infectious].
  unfold get_bin_color. by destruct (cell_eq_str (Infectious r0) "Yes").
Qed.

Lemma no_waste_type_only_yellow_black_witness :
  ("Waste_Type" ∉ columns sample_csv_no_type)
  ∧ ("Bin_Color" ∉ columns sample_csv_no_type)
  ∧ (sample_row 2024 Mar 5 "ICU" 12.5 "Yes"
       [("Month", Str "March"); ("Bin_Color", Str "Yellow")]
     ∈ rows (load_data sample_csv_no_type))
  ∧ at_col "Bin_Color"
      (sample_row 2024 Mar 5 "ICU" 12.5 "Yes"
         [("Month", Str "March"); ("Bin_Color", Str "Yellow")])
    = Str "Yellow".
Proof.
  assert (Htype : "Waste_Type" ∉ columns sample_csv_no_type).
  { apply has_column_false. reflexivity. }
  assert (Hbin : "Bin_Color" ∉ columns sample_csv_no_type).
  { apply has_column_false. reflexivity. }
  assert (Hr : sample_row 2024 Mar 5 "ICU" 12.5 "Yes"
                 [("Month", Str "March"); ("Bin_Color", Str "Yellow")]
               ∈ rows (load_data sample_csv_no_type)).
  { apply list_elem_of_lookup. exists 0%nat. vm_compute. reflexivity. }
  split; [exact Htype |]. split; [exact Hbin |]. split; [exact Hr |].
  exact (no_waste_type_only_yellow_black sample_csv_no_type _ Htype Hbin Hr).
Defined.

(** ** The sidebar options *)

Lemma NoDup_month_order : NoDup month_order.
Proof. apply (bool_decide_unpack (NoDup month_order)). by vm_compute. Qed.

(** X6. The month options are listed in calendar order whatever the order
    of the records, each at most once, and they are exactly the names of
    [month_order] that occur in the [Month] column: a [Month] value outside
    the twelve names is never offered. *)
Theorem available_months_calendar_order (df : DataFrame) :
  available_months df `sublist_of` month_order
  ∧ NoDup (available_months df)
  ∧ (∀ m, m ∈ available_months df ↔
          m ∈ month_order ∧ Str m ∈ at_col "Month" <$> rows df).
Proof.
  unfold available_months. split; [apply sublist_filter |]. split.
  - apply NoDup_filter, NoDup_month_order.
  - intros m. rewrite list_elem_of_filter, elem_of_unique. tauto.
Qed.

Lemma unique_from_sublist {A} `{EqDecision A} (seen l : list A) :
  unique_from seen l `sublist_of` l.
Proof.
  revert seen. induction l as [|x l IH]; intros seen; cbn [unique_from].
  - constructor.
  - destruct (decide (x ∈ seen)).
    + apply sublist_cons, IH.
    + apply sublist_skip, IH.
Qed.

Lemma unique_from_head {A} `{EqDecision A} (x : A) (l : list A) :
  unique (x :: l) = x :: unique_from [x] l.
Proof.
  unfold unique. cbn [unique_from].
  rewrite decide_False by apply not_elem_of_nil. done.
Qed.

(** A value met after [l] is appended when it is new, and dropped when it
    was seen. *)
Lemma unique_from_snoc {A} `{EqDecision A} (seen l : list A) (x : A) :
  unique_from seen (l ++ [x])
  = (unique_from seen l ++ (if decide (x ∈ seen ++ l) then [] else [x]))%list.
Proof.
  revert seen. induction l as [|y l IH]; intros seen.
  - cbn [Datatypes.app unique_from]. rewrite app_nil_r.
    by destruct (decide (x ∈ seen)).
  - cbn [Datatypes.app unique_from]. destruct (decide (y ∈ seen)) as [Hy|Hy].
    + rewrite IH. f_equal. apply decide_ext.
      rewrite !elem_of_app, elem_of_cons. intuition (subst; auto).
    + rewrite IH. cbn [Datatypes.app]. do 2 f_equal. apply decide_ext.
      rewrite !elem_of_app, !elem_of_cons, ?elem_of_app. tauto.
Qed.

Lemma unique_snoc {A} `{EqDecision A} (l : list A) (x : A) :
  unique (l ++ [x])
  = (unique l ++ (if decide (x ∈ l) then [] else [x]))%list.
Proof. unfold unique. by rewrite unique_from_snoc. Qed.

(** X7. The department options hold every department of the frame exactly
    once, a missing one counting as a department, in the order in which
    the departments first appear in the records: a frame without records
    has no option, and one more record at the end adds its department at
    the end of the options when that department was not met before, and
    changes nothing otherwise. *)
Theorem department_options_distinct (df : DataFrame) :
  NoDup (department_options df)
  ∧ (∀ d, d ∈ department_options df ↔ d ∈ Department <$> rows df)
  ∧ department_options df `sublist_of` (Department <$> rows df)
  ∧ head (department_options df) = head (Department <$> rows df)
  ∧ (rows df = [] → department_options df = [])
  ∧ (∀ r,
       department_options (mkDataFrame (columns df) (rows df ++ [r]))
       = (department_options df
          ++ (if decide (Department r ∈ Department <$> rows df) then []
              else [Department r]))%list).
Proof.
  unfold department_options. split; [apply NoDup_unique |].
  split; [intros d; apply elem_of_unique |].
  split; [apply unique_from_sublist |].
  split.
  { destruct (Department <$> rows df) as [|d l]; [done |].
    by rewrite unique_from_head. }
  split; [by intros -> |].
  intros r. cbn [rows]. rewrite fmap_app.
  change (Department <$> [r]) with [Department r]. by rewrite unique_snoc.
Qed.

(** ** The reporting period *)

Lemma month_list_is_not_full_year (m : string) (ms : list string) :
  m ∈ month_order →
  String.concat ", " (m :: ms) +:+ " 2024" ≠ "Full Year 2024".
Proof.
  unfold month_order. rewrite !elem_of_cons, elem_of_nil.
  intros Hm.
  repeat (destruct Hm as [-> | Hm];
          [destruct ms; cbn; discriminate |]).
  done.
Qed.

(** X8. For a selection of distinct month names, which is what the month
    widget returns, the caption reads Full Year 2024 exactly when all
    twelve months are selected, in whatever order they were picked. *)
Theorem period_text_full_year (selected_months : list string) :
  NoDup selected_months →
  (∀ m, m ∈ selected_months → m ∈ month_order) →
  period_text selected_months = "Full Year 2024"
  ↔ selected_months ≡ₚ month_order.
Proof.
  intros Hnodup Hsub. unfold period_text. split.
  - destruct (length selected_months =? 12)%nat eqn:Hlen.
    + intros _. apply Nat.eqb_eq in Hlen.
      apply submseteq_length_Permutation.
      * by apply NoDup_submseteq.
      * rewrite Hlen. by vm_compute.
    + destruct selected_months as [|m ms]; [discriminate |].
      intros Htext. exfalso.
      apply (month_list_is_not_full_year m ms); [| done].
      apply Hsub, list_elem_of_here.
  - intros Hperm. apply Permutation_length in Hperm.
    rewrite Hperm. reflexivity.
Qed.

Lemma period_text_full_year_witness :
  NoDup (reverse month_order)
  ∧ (∀ m, m ∈ reverse month_order → m ∈ month_order)
  ∧ (period_text (reverse month_order) = "Full Year 2024"
     ↔ reverse month_order ≡ₚ month_order).
Proof.
  assert (Hnodup : NoDup (reverse month_order)).
  { apply (bool_decide_unpack (NoDup (reverse month_order))). by vm_compute. }
  assert (Hsub : ∀ m, m ∈ reverse month_order → m ∈ month_order).
  { intros m. by rewrite elem_of_reverse. }
  split; [exact Hnodup |]. split; [exact Hsub |].
  exact (period_text_full_year (reverse month_order) Hnodup Hsub).
Defined.

(** ** The filter as a set operation *)

Lemma mask_Is_true selected_months selected_dept r :
  mask selected_months selected_dept r ↔
  at_col "Month" r ∈ Str <$> selected_months
  ∧ Department r ∈ selected_dept.
Proof.
  rewrite Is_true_true. unfold mask.
  by rewrite andb_true_iff, !isin_true.
Qed.

(** X9. The filter sees its selections as sets: two selections with the
    same months and the same departments, in any order and with any
    repetition, give the same frame. *)
Theorem filtered_df_selection_sets (df : DataFrame)
    (M M' : list string) (D D' : list cell) :
  (∀ m, m ∈ M ↔ m ∈ M') →
  (∀ d, d ∈ D ↔ d ∈ D') →
  filtered_df df M D = filtered_df df M' D'.
Proof.
  intros HM HD. unfold filtered_df, loc. f_equal.
  apply list_filter_iff. intros r. rewrite !mask_Is_true, !list_elem_of_fmap.
  rewrite HD. split; intros [(m & Hm & Hin) Hd]; (split; [| done]);
    exists m; (split; [done |]); by apply HM.
Qed.

Lemma filtered_df_selection_sets_witness :
  (∀ m, m ∈ ["January"; "March"] ↔ m ∈ ["March"; "January"; "March"])
  ∧ (∀ d, d ∈ [Str "ICU"] ↔ d ∈ [Str "ICU"; Str "ICU"])
  ∧ filtered_df (load_data sample_csv) ["January"; "March"] [Str "ICU"]
    = filtered_df (load_data sample_csv) ["March"; "January"; "March"]
        [Str "ICU"; Str "ICU"].
Proof.
  assert (HM : ∀ m : string,
             m ∈ ["January"; "March"] ↔ m ∈ ["March"; "January"; "March"]).
  { intros m. rewrite !elem_of_cons, !elem_of_nil. tauto. }
  assert (HD : ∀ d : cell, d ∈ [Str "ICU"] ↔ d ∈ [Str "ICU"; Str "ICU"]).
  { intros d. rewrite !elem_of_cons, !elem_of_nil. tauto. }
  split; [exact HM |]. split; [exact HD |].
  exact (filtered_df_selection_sets (load_data sample_csv) _ _ _ _ HM HD).
Defined.

(** X10. Filtering keeps the labels and keeps the surviving records in
    their order, and filtering a filtered frame is filtering once with the
    months common to both selections and the departments common to both. *)
Theorem filtered_df_composes (df : DataFrame)
    (M M' : list string) (D D' : list cell) :
  columns (filtered_df df M D) = columns df
  ∧ rows (filtered_df df M D) `sublist_of` rows df
  ∧ filtered_df (filtered_df df M D) M' D'
    = filtered_df df (filter (λ m, m ∈ M') M) (filter (λ d, d ∈ D') D).
Proof.
  split; [done |]. split; [apply sublist_filter |].
  unfold filtered_df, loc. cbn [columns rows]. f_equal.
  rewrite list_filter_filter. apply list_filter_iff. intros r.
  rewrite !mask_Is_true, !list_elem_of_fmap, list_elem_of_filter.
  split.
  - intros [[(m' & Hm' & Hin') Hd'] [(m & Hm & Hin) Hd]].
    split; [| done]. exists m. split; [done |].
    apply list_elem_of_filter. split; [| done]. congruence.
  - intros [(m & Hm & [Hin' Hin]%list_elem_of_filter) [Hd' Hd]].
    split; (split; [by exists m | done]).
Qed.

(** ** The maximum *)

Lemma float_le_refl x : float_le x x.
Proof. by destruct (float_le_total x x). Qed.

Lemma float_le_trans x y z : float_le x y → float_le y z → float_le x z.
Proof.
  unfold float_le.
  intros [Hxy|[Hxy Hq]] [Hyz|[Hyz Hq']]; [left; lia | left; lia | left; lia |].
  right. split; [congruence |].
  destruct (decide (float_class x = 0%Z)) as [Hx|Hx]; [| by left].
  right. destruct Hq as [?|Hq]; [done |].
  destruct Hq' as [?|Hq']; [congruence |]. by eapply Qle_trans.
Qed.

(** The running maximum ends on one of the numbers it met, and none of
    them is greater. *)
Lemma foldl_max_spec (m : float) (a : list float) :
  foldl (λ m w, if decide (float_le w m) then m else w) m a ∈ m :: a
  ∧ (∀ w, w ∈ m :: a →
       float_le w (foldl (λ m w, if decide (float_le w m) then m else w) m a)).
Proof.
  revert m. induction a as [|x a IH]; intros m; cbn [foldl].
  - split; [apply list_elem_of_here |].
    intros w ->%list_elem_of_singleton. apply float_le_refl.
  - destruct (IH (if decide (float_le x m) then m else x)) as [Hin Hmax].
    assert (Hm : float_le m (if decide (float_le x m) then m else x)).
    { destruct (decide (float_le x m)) as [?|Hx]; [apply float_le_refl |].
      by destruct (float_le_total x m). }
    assert (Hx : float_le x (if decide (float_le x m) then m else x)).
    { destruct (decide (float_le x m)); [done | apply float_le_refl]. }
    split.
    + apply elem_of_cons in Hin as [Hin|Hin].
      * rewrite Hin. destruct (decide (float_le x m)).
        -- apply list_elem_of_here.
        -- apply list_elem_of_further, list_elem_of_here.
      * by do 2 apply list_elem_of_further.
    + intros w Hw. apply elem_of_cons in Hw as [->|Hw].
      * eapply float_le_trans; [exact Hm |]. apply Hmax, list_elem_of_here.
      * apply elem_of_cons in Hw as [->|Hw].
        -- eapply float_le_trans; [exact Hx |].
           apply Hmax, list_elem_of_here.
        -- by apply Hmax, list_elem_of_further.
Qed.

Lemma np_max_spec (a : list float) :
  a ≠ [] → np_max a ∈ a ∧ (∀ w, w ∈ a → float_le w (np_max a)).
Proof. destruct a as [|x a]; [done |]. intros _. apply foldl_max_spec. Qed.

Lemma count_zero (s : list float) :
  count s = 0%nat ↔ ∀ w, w ∈ s → isna w = true.
Proof.
  unfold count. rewrite length_zero_iff_nil. split.
  - intros Hnone w Hw. destruct (isna w) eqn:Hna; [done |].
    assert (w ∈ filter (λ w, isna w = false) s) as Hin
      by by apply list_elem_of_filter.
    rewrite Hnone in Hin. by apply elem_of_nil in Hin.
  - intros Hall. apply elem_of_nil_inv. intros w Hw.
    apply list_elem_of_filter in Hw as [Hw Hin]. apply Hall in Hin.
    congruence.
Qed.

Lemma elem_of_fillna v s w :
  w ∈ fillna v s ↔ ∃ x, x ∈ s ∧ w = if isna x then v else x.
Proof.
  unfold fillna. rewrite list_elem_of_fmap. split.
  - intros (x & -> & Hx). by exists x.
  - intros (x & Hx & ->). by exists x.
Qed.

(** The one float that is minus infinity. *)
Lemma float_class_neg_infinity w :
  float_class w = (-1)%Z → w = neg_infinity.
Proof.
  unfold float_class. intros Hclass.
  rewrite <- (SF2Prim_Prim2SF w).
  destruct (Prim2SF w) as [[]|[]| |]; try discriminate Hclass. reflexivity.
Qed.

Lemma float_class_lower x : (-1 ≤ float_class x)%Z.
Proof. unfold float_class. destruct (Prim2SF x) as [[]|[]| |]; lia. Qed.

Lemma Series_max_spec (s : list float) :
  (isna (Series_max s) = true ↔ ∀ w, w ∈ s → isna w = true)
  ∧ (∀ w, w ∈ s → isna w = false → float_le w (Series_max s))
  ∧ ((∃ w, w ∈ s ∧ isna w = false) →
     Series_max s ∈ s ∧ isna (Series_max s) = false).
Proof.
  unfold Series_max. destruct (count s =? 0)%nat eqn:Hcount.
  - apply Nat.eqb_eq in Hcount.
    pose proof (proj1 (count_zero s) Hcount) as Hall.
    split; [done |]. split.
    + intros w Hw Hna. apply Hall in Hw. congruence.
    + intros (w & Hw & Hna). apply Hall in Hw. congruence.
  - apply Nat.eqb_neq in Hcount.
    assert (Hsome : ∃ w, w ∈ s ∧ isna w = false).
    { destruct (decide (Forall (λ w, isna w = true) s)) as [Hall|Hsome].
      - exfalso. apply Hcount, count_zero.
        by apply Forall_forall.
      - apply not_Forall_Exists in Hsome; [| apply _].
        apply Exists_exists in Hsome as (w & Hw & Hna).
        exists w. split; [done |]. by apply not_true_is_false. }
    destruct Hsome as (w0 & Hw0 & Hna0).
    assert (Hne : fillna neg_infinity s ≠ []).
    { intros Hnil. assert (w0 ∈ fillna neg_infinity s) as Hin.
      { apply elem_of_fillna. exists w0. by rewrite Hna0. }
      rewrite Hnil in Hin. by apply elem_of_nil in Hin. }
    destruct (np_max_spec _ Hne) as [Hin Hmax].
    assert (Hpresent : ∀ w, w ∈ s → isna w = false →
                            float_le w (np_max (fillna neg_infinity s))).
    { intros w Hw Hna. apply Hmax, elem_of_fillna. exists w.
      by rewrite Hna. }
    assert (Hmember : np_max (fillna neg_infinity s) ∈ s
                      ∧ isna (np_max (fillna neg_infinity s)) = false).
    { apply elem_of_fillna in Hin as (x & Hx & Heq).
      destruct (isna x) eqn:Hna; [| by rewrite Heq].
      rewrite Heq. split; [| reflexivity].
      assert (w0 = neg_infinity) as <-; [| done].
      apply float_class_neg_infinity.
      pose proof (Hpresent w0 Hw0 Hna0) as Hle. rewrite Heq in Hle.
      pose proof (float_class_lower w0) as Hlow.
      unfold float_le in Hle.
      change (float_class neg_infinity) with (-1)%Z in Hle. lia. }
    split; [| split].
    + split.
      * intros Hnan. destruct Hmember as [_ Hna]. congruence.
      * intros Hall. apply Hall in Hw0. congruence.
    + done.
    + by intros _.
Qed.

(** X14. The maximum is NaN exactly when no record has a weight; otherwise
    it is the weight of one of the records, a weight that is present, and
    no present weight is greater. *)
Theorem max_waste_spec (fdf : DataFrame) :
  (isna (max_waste fdf) = true
   ↔ ∀ r, r ∈ rows fdf → isna (Weight_kg r) = true)
  ∧ (∀ r, r ∈ rows fdf → isna (Weight_kg r) = false →
          float_le (Weight_kg r) (max_waste fdf))
  ∧ ((∃ r, r ∈ rows fdf ∧ isna (Weight_kg r) = false) →
     ∃ r, r ∈ rows fdf ∧ isna (Weight_kg r) = false
          ∧ max_waste fdf = Weight_kg r).
Proof.
  unfold max_waste.
  destruct (Series_max_spec (Weight_kg <$> rows fdf))
    as (Hnan & Hmax & Hin).
  split; [| split].
  - rewrite Hnan. split.
    + intros Hall r Hr. apply Hall, list_elem_of_fmap. by exists r.
    + intros Hall w (r & -> & Hr)%list_elem_of_fmap. by apply Hall.
  - intros r Hr Hna. apply Hmax; [| done].
    apply list_elem_of_fmap. by exists r.
  - intros (r & Hr & Hna). destruct Hin as [Hmem Hpresent].
    { exists (Weight_kg r). split; [| done].
      apply list_elem_of_fmap. by exists r. }
    apply list_elem_of_fmap in Hmem as (r' & Heq & Hr').
    exists r'. split; [done |]. split; [| done]. by rewrite <- Heq.
Qed.

(** ** Display *)

(** X15. Rounding for display moves a value by at most one half, leaves an
    integer alone, and on an exact tie picks the even neighbour. *)
Theorem round_half_even_spec (x : Q) :
  (Qabs (inject_Z (round_half_even x) - x) <= 1 # 2)%Q
  ∧ (∀ z : Z, round_half_even (inject_Z z) = z)
  ∧ ((x - inject_Z (Qfloor x) == 1 # 2)%Q →
     Z.even (round_half_even x) = true).
Proof.
  pose proof (Qfloor_le x) as Hlo. pose proof (Qlt_floor x) as Hhi.
  rewrite inject_Z_plus in Hhi. change (inject_Z 1) with 1%Q in Hhi.
  split; [| split].
  - apply Qabs_Qle_condition. unfold round_half_even. cbv zeta.
    destruct (x - inject_Z (Qfloor x) ?= 1 # 2)%Q eqn:Hcmp.
    + apply Qeq_alt in Hcmp. destruct (Z.even (Qfloor x)).
      * lra.
      * rewrite inject_Z_plus. change (inject_Z 1) with 1%Q. lra.
    + apply Qlt_alt in Hcmp. lra.
    + apply Qgt_alt in Hcmp. rewrite inject_Z_plus.
      change (inject_Z 1) with 1%Q. lra.
  - intros z. unfold round_half_even. cbv zeta. rewrite Qfloor_Z.
    destruct (inject_Z z - inject_Z z ?= 1 # 2)%Q eqn:Hcmp; [| done |].
    + apply Qeq_alt in Hcmp. lra.
    + apply Qgt_alt in Hcmp. lra.
  - intros Htie. unfold round_half_even. cbv zeta.
    destruct (x - inject_Z (Qfloor x) ?= 1 # 2)%Q eqn:Hcmp.
    + destruct (Z.even (Qfloor x)) eqn:Heven; [done |].
      rewrite Z.add_1_r, Z.even_succ, <- Z.negb_even. by rewrite Heven.
    + apply Qlt_alt in Hcmp. lra.
    + apply Qgt_alt in Hcmp. lra.
Qed.

(** X16. When no record of the frame has a weight, be it a frame without
    records or one whose weights are all missing, the two sums show as
    0.0 kg and the mean and the maximum as nan kg. *)
Theorem key_metrics_without_weights (fdf : DataFrame) :
  (∀ r, r ∈ rows fdf → isna (Weight_kg r) = true) →
  key_metrics fdf
  = [ st_subheader "Key Metrics";
      st_metric "Total Waste Volume" "0.0 kg" (Some "Accumulated");
      st_metric "Infectious Waste" "0.0 kg" (Some "Biohazard Risk");
      st_metric "Avg. Daily Output" "nan kg" None;
      st_metric "Max Recorded Spike" "nan kg" None ].
Proof.
  intros Hmissing. apply key_metrics_no_weight.
  apply Forall_fmap, Forall_forall. intros r Hr. by apply Hmissing.
Qed.

Lemma key_metrics_without_weights_witness :
  (∀ r, r ∈ rows (load_data sample_csv_no_weight) →
        isna (Weight_kg r) = true)
  ∧ key_metrics (load_data sample_csv_no_weight)
    = [ st_subheader "Key Metrics";
        st_metric "Total Waste Volume" "0.0 kg" (Some "Accumulated");
        st_metric "Infectious Waste" "0.0 kg" (Some "Biohazard Risk");
        st_metric "Avg. Daily Output" "nan kg" None;
        st_metric "Max Recorded Spike" "nan kg" None ].
Proof.
  assert (Hmissing : ∀ r, r ∈ rows (load_data sample_csv_no_weight) →
                          isna (Weight_kg r) = true).
  { intros r Hr. vm_compute in Hr.
    apply list_elem_of_singleton in Hr as ->. reflexivity. }
  split; [exact Hmissing |].
  exact (key_metrics_without_weights (load_data sample_csv_no_weight)
           Hmissing).
Defined.

Lemma list_ascii_of_string_String c s :
  String.list_ascii_of_string (String c s)
  = c :: String.list_ascii_of_string s.
Proof. reflexivity. Qed.

(** X17. Grouping the integer digits changes nothing but commas: without
    its commas the grouped string is the digit string, and it has one comma
    for every full group of three digits after the first digit. *)
Theorem thousands_spec (digits : string) :
  filter (λ c, c ≠ ","%char)
    (String.list_ascii_of_string (thousands digits))
  = filter (λ c, c ≠ ","%char) (String.list_ascii_of_string digits)
  ∧ String.length (thousands digits)
    = (String.length digits + (String.length digits - 1) / 3)%nat.
Proof.
  induction digits as [|c rest [IHchars IHlen]]; [done |].
  cbn [thousands]. rewrite !list_ascii_of_string_String.
  cbn [String.length].
  destruct ((0 <? String.length rest)%nat
            && (String.length rest mod 3 =? 0)%nat) eqn:Hcond.
  - apply andb_true_iff in Hcond as [Hpos%Nat.ltb_lt Hmod%Nat.eqb_eq].
    change ("," +:+ thousands rest) with (String "," (thousands rest)).
    rewrite list_ascii_of_string_String.
    cbn [String.length]. split.
    + rewrite !filter_cons, IHchars.
      destruct (decide (c ≠ ","%char)); by rewrite decide_False by tauto.
    + rewrite IHlen.
      pose proof (Nat.div_mod_eq (String.length rest) 3).
      pose proof (Nat.div_mod_eq (String.length rest - 1) 3).
      pose proof (Nat.mod_upper_bound (String.length rest - 1) 3).
      pose proof (Nat.div_mod_eq (S (String.length rest) - 1) 3).
      pose proof (Nat.mod_upper_bound (S (String.length rest) - 1) 3).
      lia.
  - split.
    + by rewrite !filter_cons, IHchars.
    + rewrite IHlen. apply andb_false_iff in Hcond.
      pose proof (Nat.div_mod_eq (String.length rest) 3).
      pose proof (Nat.mod_upper_bound (String.length rest) 3).
      pose proof (Nat.div_mod_eq (String.length rest - 1) 3).
      pose proof (Nat.mod_upper_bound (String.length rest - 1) 3).
      destruct Hcond as [Hzero%Nat.ltb_ge | Hmod%Nat.eqb_neq].
      * replace (String.length rest) with 0%nat by lia. reflexivity.
      * replace (S (String.length rest) - 1)%nat
          with (String.length rest) by lia.
        lia.
Qed.

#[global] Instance date_le_total : Total date_le.
Proof.
  intros a b. unfold date_le.
  destruct a as [ya ma da], b as [yb mb db]. cbn [year month day].
  destruct (Z.lt_trichotomy ya yb) as [Hy|[->|Hy]];
    [left; by left | | right; by left].
  destruct (decide (ma = mb)) as [->|Hne].
  - destruct (Z.le_ge_cases da db) as [Hd|Hd]; [left | right];
      right; (split; [done |]); right; done.
  - assert (Hnum : month_number ma ≠ month_number mb).
    { destruct ma, mb; cbn; congruence. }
    destruct (Z.lt_trichotomy (month_number ma) (month_number mb))
      as [Hm|[Hm|Hm]]; [left | done | right];
      right; (split; [done |]); by left.
Qed.

#[global] Instance pair_le_total : Total pair_le.
Proof.
  intros a b. unfold pair_le.
  rewrite (String.compare_antisym b.1 a.1).
  destruct (String.compare a.1 b.1) eqn:Hcmp; cbn; [| tauto | tauto].
  apply String.compare_eq_iff in Hcmp. apply str_le_total.
Qed.

(** ** The grouped views *)

Lemma key_of_Some c r s : key_of c r = Some s ↔ at_col c r = Str s.
Proof. apply cell_key_Some. Qed.

Lemma key_of_is_Some c r : is_Some (key_of c r) ↔ at_col c r ≠ NaN.
Proof. apply cell_key_is_Some. Qed.

Lemma key_of_partition c (l : list Row) :
  ((λ p, p.1) <$> groupby_sum str_le (key_of c) l)
    ≫= (λ s, filter (λ r, at_col c r = Str s) l)
  ≡ₚ filter (λ r, at_col c r ≠ NaN) l.
Proof.
  erewrite list_filter_iff; last first.
  { intros r. symmetry. apply (key_of_is_Some c r). }
  rewrite <- (groupby_sum_partition str_le (key_of c)).
  erewrite list_bind_ext; [reflexivity | | done].
  intros s. unfold group_rows. apply list_filter_iff. intros r.
  symmetry. apply key_of_Some.
Qed.

Lemma department_infectious_key_Some r d i :
  department_infectious_key r = Some (d, i)
  ↔ Department r = Str d ∧ Infectious r = Str i.
Proof.
  unfold department_infectious_key.
  destruct (Department r), (Infectious r); split;
    try discriminate; try (intros [? ?]; discriminate).
  - by intros [= -> ->].
  - by intros [[= ->] [= ->]].
Qed.

Lemma date_key_Some r t : date_key r = Some t ↔ Date r = Stamp t.
Proof. unfold date_key. destruct (Date r); split; congruence. Qed.

(** X18. The by-department view has one line per department of the
    filtered frame, each carrying the sum of that department's weights, and
    the lines are in ascending order of weight; records without a
    department make no line. *)
Theorem dept_group_spec (fdf : DataFrame) :
  Sorted (λ a b, float_le a.2 b.2) (dept_group fdf)
  ∧ NoDup ((λ p, p.1) <$> dept_group fdf)
  ∧ (∀ d, d ∈ (λ p, p.1) <$> dept_group fdf
          ↔ Str d ∈ Department <$> rows fdf)
  ∧ (∀ d w, (d, w) ∈ dept_group fdf →
       w = group_sum
             (Weight_kg
                <$> filter (λ r, Department r = Str d) (rows fdf))).
Proof.
  split; [| split; [| split]].
  - unfold dept_group, sort_by_weight. apply Sorted_merge_sort, weight_le_total.
  - unfold dept_group. rewrite sort_by_weight_keys.
    apply groupby_sum_keys_NoDup.
  - intros d. unfold dept_group.
    rewrite sort_by_weight_keys, elem_of_groupby_sum_keys.
    rewrite list_elem_of_fmap. split.
    + intros (r & Hr & Hkey%cell_key_Some). by exists r.
    + intros (r & Heq & Hr). exists r. split; [done |].
      by apply cell_key_Some.
  - apply dept_group_value.
Qed.

(** X19. The by-waste-type view is in descending order of weight, a sum
    that is NaN coming last, and has one line per waste type that occurs,
    each carrying the sum of the weights of its records.  The records whose
    type is missing are left out: the groups of the lines hold the records
    that have a type, each once. *)
Theorem type_group_spec (fdf : DataFrame) :
  Sorted (λ a b, float_ge_nan_last a.2 b.2) (type_group fdf)
  ∧ NoDup ((λ p, p.1) <$> type_group fdf)
  ∧ (∀ t, t ∈ (λ p, p.1) <$> type_group fdf ↔
          Str t ∈ at_col "Waste_Type" <$> rows fdf)
  ∧ (∀ t w, (t, w) ∈ type_group fdf →
       w = group_sum
             (Weight_kg
                <$> filter (λ r, at_col "Waste_Type" r = Str t) (rows fdf)))
  ∧ ((λ p, p.1) <$> type_group fdf)
      ≫= (λ t, filter (λ r, at_col "Waste_Type" r = Str t) (rows fdf))
    ≡ₚ filter (λ r, at_col "Waste_Type" r ≠ NaN) (rows fdf).
Proof.
  unfold type_group. split; [| split; [| split; [| split]]].
  - unfold sort_by_weight. apply Sorted_merge_sort, weight_ge_total.
  - rewrite sort_by_weight_keys. apply groupby_sum_keys_NoDup.
  - intros t. rewrite sort_by_weight_keys, elem_of_groupby_sum_keys.
    rewrite list_elem_of_fmap. split.
    + intros (r & Hr & Hkey%key_of_Some). by exists r.
    + intros (r & Heq & Hr). exists r. split; [done |]. by apply key_of_Some.
  - intros t w Hin. rewrite sort_by_weight_Permutation in Hin.
    apply elem_of_groupby_sum in Hin as ->.
    unfold group_total, group_rows. do 2 f_equal.
    apply list_filter_iff. intros r. apply key_of_Some.
  - rewrite sort_by_weight_keys. apply key_of_partition.
Qed.

Lemma get_bin_color_in_bin_colors infectious waste_type :
  get_bin_color infectious waste_type ∈ bin_colors.
Proof.
  unfold get_bin_color, bin_colors.
  destruct (cell_eq_str infectious "Yes"), (py_in _ _);
    rewrite !elem_of_cons; tauto.
Qed.

Lemma derived_bin_color csv M D r :
  "Bin_Color" ∉ columns csv →
  r ∈ rows (filtered_df (load_data csv) M D) →
  ∃ color, at_col "Bin_Color" r = Str color ∧ color ∈ bin_colors.
Proof.
  intros Hbin%has_column_false [Hr _]%elem_of_filtered_df.
  apply elem_of_rows_load_data in Hr as (r0 & _ & ->); [| done].
  rewrite at_col_assigned. eexists. split; [done |].
  apply get_bin_color_in_bin_colors.
Qed.

(** X20. When [Bin_Color] is derived by the loader, the bin-color view has
    at most the four bins, each once and in alphabetical order, each
    carrying the sum of the weights of its records, and every filtered
    record is in the group of exactly one line. *)
Theorem bin_group_spec (csv : DataFrame) (M : list string) (D : list cell) :
  "Bin_Color" ∉ columns csv →
  Sorted str_le ((λ p, p.1) <$> bin_group (filtered_df (load_data csv) M D))
  ∧ NoDup ((λ p, p.1) <$> bin_group (filtered_df (load_data csv) M D))
  ∧ (∀ b, b ∈ (λ p, p.1) <$> bin_group (filtered_df (load_data csv) M D) →
          b ∈ bin_colors)
  ∧ (∀ b w, (b, w) ∈ bin_group (filtered_df (load_data csv) M D) →
       w = group_sum
             (Weight_kg
                <$> filter (λ r, at_col "Bin_Color" r = Str b)
                      (rows (filtered_df (load_data csv) M D))))
  ∧ ((λ p, p.1) <$> bin_group (filtered_df (load_data csv) M D))
      ≫= (λ b, filter (λ r, at_col "Bin_Color" r = Str b)
                 (rows (filtered_df (load_data csv) M D)))
    ≡ₚ rows (filtered_df (load_data csv) M D).
Proof.
  intros Hbin. unfold bin_group. split; [| split; [| split; [| split]]].
  - apply groupby_sum_keys_Sorted, _.
  - apply groupby_sum_keys_NoDup.
  - intros b. rewrite elem_of_groupby_sum_keys.
    intros (r & Hr & Hkey%key_of_Some).
    destruct (derived_bin_color csv M D r Hbin Hr) as (color & Hc & Hin).
    congruence.
  - intros b w Hin. apply elem_of_groupby_sum in Hin as ->.
    unfold group_total, group_rows. do 2 f_equal.
    apply list_filter_iff. intros r. apply key_of_Some.
  - rewrite key_of_partition, filter_all; [done |].
    intros r Hr.
    destruct (derived_bin_color csv M D r Hbin Hr) as (color & -> & _).
    done.
Qed.

Lemma bin_group_spec_witness :
  ("Bin_Color" ∉ columns sample_csv)
  ∧ Sorted str_le
      ((λ p, p.1)
         <$> bin_group
               (filtered_df (load_data sample_csv) ["March"] [Str "ICU"])).
Proof.
  assert (Hbin : "Bin_Color" ∉ columns sample_csv).
  { apply has_column_false. reflexivity. }
  split; [exact Hbin |].
  exact (proj1 (bin_group_spec sample_csv ["March"] [Str "ICU"] Hbin)).
Defined.

(** X21. The department by infectious view has one line per pair of a
    department and a flag that occurs in a record, in lexicographic order;
    the daily trend has one line per day that occurs, in chronological
    order, carrying the sum of the weights of the records of that day,
    added in the order the sort leaves them in.  Records without a
    department, a flag or a date make no line. *)
Theorem grouped_df_and_trend_spec (fdf : DataFrame) :
  (Sorted pair_le ((λ p, p.1) <$> grouped_df fdf)
   ∧ NoDup ((λ p, p.1) <$> grouped_df fdf)
   ∧ (∀ d i, (d, i) ∈ (λ p, p.1) <$> grouped_df fdf
             ↔ ∃ r, r ∈ rows fdf
                    ∧ Department r = Str d ∧ Infectious r = Str i)
   ∧ (∀ d i w, ((d, i), w) ∈ grouped_df fdf →
        w = group_sum
              (Weight_kg
                 <$> filter (λ r, Department r = Str d ∧ Infectious r = Str i)
                       (rows fdf))))
  ∧ (Sorted date_le ((λ p, p.1) <$> trend_data fdf)
     ∧ NoDup ((λ p, p.1) <$> trend_data fdf)
     ∧ (∀ t, t ∈ (λ p, p.1) <$> trend_data fdf
             ↔ Stamp t ∈ Date <$> rows fdf)
     ∧ (∀ t w, (t, w) ∈ trend_data fdf →
          ∃ l, l ≡ₚ filter (λ r, Date r = Stamp t) (rows fdf)
               ∧ w = group_sum (Weight_kg <$> l))).
Proof.
  unfold grouped_df, trend_data. split.
  - split; [apply groupby_sum_keys_Sorted, _ |].
    split; [apply groupby_sum_keys_NoDup |]. split.
    + intros d i. rewrite elem_of_groupby_sum_keys. split.
      * intros (r & Hr & Hkey%department_infectious_key_Some). by exists r.
      * intros (r & Hr & Hkey). exists r. split; [done |].
        by apply department_infectious_key_Some.
    + intros d i w Hin. apply elem_of_groupby_sum in Hin as ->.
      unfold group_total, group_rows. do 2 f_equal.
      apply list_filter_iff. intros r.
      apply department_infectious_key_Some.
  - split; [apply groupby_sum_keys_Sorted, _ |].
    split; [apply groupby_sum_keys_NoDup |]. split.
    + intros t. rewrite elem_of_groupby_sum_keys, list_elem_of_fmap.
      split.
      * intros (r & Hr & Hkey%date_key_Some). exists r. split; [done |].
        by rewrite merge_sort_Permutation in Hr.
      * intros (r & Heq & Hr). exists r.
        split; [by rewrite merge_sort_Permutation |].
        by apply date_key_Some.
    + intros t w Hin. apply elem_of_groupby_sum in Hin as ->.
      eexists. split; [| reflexivity].
      unfold group_rows. rewrite merge_sort_Permutation.
      erewrite list_filter_iff; [reflexivity |].
      intros r. apply date_key_Some.
Qed.

(** ** More on the page *)

Section page_views.
Variable repr_float : float → string.

(** X22. The page shows the warning exactly when the file has no
    [Waste_Type] column, and draws the by-waste-type chart exactly when it
    has one; it never shows both. *)
Theorem warning_iff_no_waste_type
    (csv : DataFrame) (M : list string) (D : list cell) :
  (st_warning "Waste_Type column missing." ∈ app repr_float csv M D
   ↔ "Waste_Type" ∉ columns csv)
  ∧ ((∃ data, st_plotly_chart (px_bar "Waste_Type" "Weight_kg" data)
              ∈ app repr_float csv M D)
     ↔ "Waste_Type" ∈ columns csv).
Proof.
  assert (Hcol : has_column (filtered_df (load_data csv) M D) "Waste_Type"
                 = has_column csv "Waste_Type").
  { by rewrite has_column_filtered_df, has_column_load_data_ne. }
  rewrite <- has_column_false, <- has_column_true, <- Hcol.
  unfold app, composition, waste_type_view, bin_color_view. cbv zeta.
  unfold controls, key_metrics, risk_and_department, comparative, timeline,
    audit_trail, credits.
  destruct (has_column (filtered_df (load_data csv) M D) "Waste_Type");
    destruct (has_column (filtered_df (load_data csv) M D) "Bin_Color");
    (split; split);
    first [ intros _; reflexivity
          | intros Hfalse; discriminate Hfalse
          | intros _; on_the_page
          | intros _; eexists; on_the_page
          | intros Hin; off_the_page Hin
          | intros [data Hin]; off_the_page Hin ].
Qed.

(** X23. The bin-color ring is on every page: the loader leaves no frame
    without a [Bin_Color] column, so the column test in front of that chart
    never fails. *)
Theorem bin_color_chart_always_drawn
    (csv : DataFrame) (M : list string) (D : list cell) :
  bin_color_view (filtered_df (load_data csv) M D)
  = [ st_plotly_chart
        (px_pie "Bin_Color" "Weight_kg"
           (one_label id (bin_group (filtered_df (load_data csv) M D)))) ]
  ∧ st_plotly_chart
      (px_pie "Bin_Color" "Weight_kg"
         (one_label id (bin_group (filtered_df (load_data csv) M D))))
    ∈ app repr_float csv M D.
Proof.
  assert (Hview : bin_color_view (filtered_df (load_data csv) M D)
          = [ st_plotly_chart
                (px_pie "Bin_Color" "Weight_kg"
                   (one_label id
                      (bin_group (filtered_df (load_data csv) M D)))) ]).
  { unfold bin_color_view.
    by rewrite has_column_filtered_df, has_column_load_data. }
  split; [done |]. unfold app, composition. cbv zeta. rewrite Hview.
  unfold waste_type_view.
  destruct (has_column (filtered_df (load_data csv) M D) "Waste_Type");
    on_the_page.
Qed.

(** X24. On the first run, with both widgets at their defaults, the page
    is the page of the loaded records that have a [Date]: its table, its
    download and its total are theirs.  When no [Date] is missing, they are
    those of every record of the file. *)
Theorem first_run_shows_dated_records (csv : DataFrame) :
  st_dataframe (dated (load_data csv)) ∈ app_first_run repr_float csv
  ∧ st_download_button "Download Filtered Data as CSV"
      (encode_utf8 (to_csv repr_float (dated (load_data csv))))
      "hospital_waste_audit_data.csv" "text/csv"
    ∈ app_first_run repr_float csv
  ∧ st_metric "Total Waste Volume"
      (kpi1_value (dated (load_data csv))) (Some "Accumulated")
    ∈ app_first_run repr_float csv
  ∧ ((∀ r, r ∈ rows csv → Date r ≠ NaT) →
     st_dataframe (load_data csv) ∈ app_first_run repr_float csv
     ∧ st_download_button "Download Filtered Data as CSV"
         (encode_utf8 (to_csv repr_float (load_data csv)))
         "hospital_waste_audit_data.csv" "text/csv"
       ∈ app_first_run repr_float csv
     ∧ st_metric "Total Waste Volume"
         (format_comma_f 1 (Series_sum (Weight_kg <$> rows csv)) +:+ " kg")
         (Some "Accumulated")
       ∈ app_first_run repr_float csv).
Proof.
  assert (Hpage :
    st_dataframe (dated (load_data csv)) ∈ app_first_run repr_float csv
    ∧ st_download_button "Download Filtered Data as CSV"
        (encode_utf8 (to_csv repr_float (dated (load_data csv))))
        "hospital_waste_audit_data.csv" "text/csv"
      ∈ app_first_run repr_float csv
    ∧ st_metric "Total Waste Volume"
        (kpi1_value (dated (load_data csv))) (Some "Accumulated")
      ∈ app_first_run repr_float csv).
  { unfold app_first_run, app. cbv zeta. rewrite filtered_df_defaults.
    unfold composition, waste_type_view, bin_color_view.
    unfold controls, key_metrics, risk_and_department, comparative, timeline,
      audit_trail, credits.
    destruct (has_column (dated (load_data csv)) "Waste_Type");
      destruct (has_column (dated (load_data csv)) "Bin_Color");
      (split; [| split]); on_the_page. }
  destruct Hpage as (Htable & Hbutton & Htotal).
  split; [done |]. split; [done |]. split; [done |].
  intros Hdated.
  assert (Hall : dated (load_data csv) = load_data csv).
  { by apply dated_all, all_dated_loaded. }
  rewrite Hall in Htable, Hbutton, Htotal.
  split; [done |]. split; [done |].
  unfold kpi1_value, total_waste in Htotal.
  destruct (enrich_keeps_fields
              (assign "Month" (λ r, month_name (Date r)) csv))
    as (_ & _ & Hw & _).
  destruct (assign_keeps_fields "Month" (λ r, month_name (Date r)) csv)
    as (_ & _ & Hw' & _).
  unfold load_data in Htotal at 1. cbv zeta in Htotal.
  by rewrite Hw, Hw' in Htotal.
Qed.

(** X25. On a frame without records nothing fails: every grouped view is
    empty and the export consists of the header line alone. *)
Theorem empty_frame_views (fdf : DataFrame) :
  rows fdf = [] →
  dept_group fdf = []
  ∧ type_group fdf = []
  ∧ bin_group fdf = []
  ∧ grouped_df fdf = []
  ∧ trend_data fdf = []
  ∧ csv_records repr_float fdf = [columns fdf]
  ∧ to_csv repr_float fdf = csv_line (columns fdf).
Proof.
  intros Hempty.
  unfold dept_group, type_group, bin_group, grouped_df, trend_data,
    to_csv, csv_records.
  rewrite Hempty. repeat split.
Qed.
End page_views.

Lemma empty_frame_views_witness :
  rows january_icu = []
  ∧ dept_group january_icu = []
  ∧ type_group january_icu = []
  ∧ bin_group january_icu = []
  ∧ grouped_df january_icu = []
  ∧ trend_data january_icu = []
  ∧ csv_records sample_repr january_icu = [columns january_icu]
  ∧ to_csv sample_repr january_icu = csv_line (columns january_icu).
Proof.
  split; [reflexivity |].
  exact (empty_frame_views sample_repr january_icu eq_refl).
Defined.
